(** * project-commerce-backend: the storefront API, embedded and verified

    The development follows the three source files:
    - [models.py]: the nine tables, as records and a [Db] of row lists;
    - [app.py]: the route handlers, as programs of a small session monad
      (a unit of work with [flush], [rollback] and [commit]);
    - [migration/versions/d7c5cf0640c9_initial_migration.py]: the two
      schema operations, in [Module Migration].

    Conventions.  A text is the [string] of its UTF-8 bytes.  A
    [Numeric(10, 2)] amount is the integer number of hundredths; the
    arithmetic on amounts is exact, as [Decimal]'s is up to 28 significant
    digits.  The wall-clock columns ([created_at],
    [updated_at], [added_at]) are left out of the rows: the ORM fills them and
    no handler branches on them.  A handler runs with the identity that
    [@jwt_required()] has already verified. *)

From Stdlib Require Import ZArith NArith List String Ascii Bool Lia.
From Stdlib Require Import DecimalString.
Import ListNotations.
Open Scope string_scope.
Open Scope list_scope.
Open Scope Z_scope.

(** String concatenation, Python's [+] and f-strings. *)
Infix "+++" := String.append (right associativity, at level 60).
Set Warnings "-register-all".

(* ================================================================= *)
(** ** Python values that cross the HTTP boundary *)

(** A Python [float] as [json.loads] can produce it: finite values are
    [m * 2^e]; [NaN] and [Infinity] are accepted by the decoder as well. *)
Inductive pyfloat : Type :=
| FNan
| FInf (negative : bool)
| FFinite (m e : Z).

Inductive json : Type :=
| JNull
| JBool (b : bool)
| JInt (n : Z)
| JFloat (f : pyfloat)
| JStr (s : string)
| JArr (l : list json)
| JObj (l : list (string * json)).

Module PyInt.

(** [int(x)] on a decoded JSON value; [None] stands for the [TypeError],
    [ValueError] or [OverflowError] that Python raises.

    On a text CPython works in three steps, and so do the definitions:
    every code point is mapped to an ASCII character (a Unicode blank to a
    space, a Unicode decimal digit to its ASCII digit, anything else from
    127 up to a question mark); the literal is read (blanks, a sign, digits
    with single underscores between them, blanks); and a literal of more
    than [max_str_digits] digits is refused. *)

(** The code points of a text, from the bytes of its UTF-8 encoding;
    [None] for bytes that encode no text. *)
Definition continuation (b : N) : bool := ((128 <=? b) && (b <? 192))%N.

Definition scalar (low c : N) (rest : option (list N)) : option (list N) :=
  if ((low <=? c) && (c <? 1114112)
      && negb ((55296 <=? c) && (c <? 57344)))%N
  then option_map (cons c) rest
  else None.

Fixpoint code_points (s : list N) : option (list N) :=
  match s with
  | [] => Some []
  | b :: s1 =>
      if (b <? 128)%N then option_map (cons b) (code_points s1)
      else if (b <? 192)%N then None
      else if (b <? 224)%N then
        match s1 with
        | c1 :: s2 =>
            if continuation c1
            then scalar 128 ((b - 192) * 64 + (c1 - 128))%N (code_points s2)
            else None
        | _ => None
        end
      else if (b <? 240)%N then
        match s1 with
        | c1 :: c2 :: s3 =>
            if continuation c1 && continuation c2
            then scalar 2048
                   ((b - 224) * 4096 + (c1 - 128) * 64 + (c2 - 128))%N
                   (code_points s3)
            else None
        | _ => None
        end
      else if (b <? 248)%N then
        match s1 with
        | c1 :: c2 :: c3 :: s4 =>
            if continuation c1 && continuation c2 && continuation c3
            then scalar 65536
                   ((b - 240) * 262144 + (c1 - 128) * 4096
                    + (c2 - 128) * 64 + (c3 - 128))%N
                   (code_points s4)
            else None
        | _ => None
        end
      else None
  end.

(** [Py_UNICODE_ISSPACE], consulted from 127 up. *)
Definition unicode_space (c : N) : bool :=
  (existsb (N.eqb c) [133; 160; 5760; 8232; 8233; 8239; 8287; 12288]
   || (8192 <=? c) && (c <=? 8202))%N.

(** [Py_UNICODE_TODECIMAL]: the decimal digits of the Unicode database
    (version 14.0, the one of CPython 3.11) come in runs of ten, zero
    first; these are the zeros. *)
Definition decimal_zeros : list N :=
  [48; 1632; 1776; 1984; 2406; 2534; 2662; 2790; 2918; 3046; 3174; 3302;
   3430; 3558; 3664; 3792; 3872; 4160; 4240; 6112; 6160; 6470; 6608; 6784;
   6800; 6992; 7088; 7232; 7248; 42528; 43216; 43264; 43472; 43504; 43600;
   44016; 65296; 66720; 68912; 69734; 69872; 69942; 70096; 70384; 70736;
   70864; 71248; 71360; 71472; 71904; 72016; 72784; 73040; 73120; 92768;
   92864; 93008; 120782; 120792; 120802; 120812; 120822; 123200; 123632;
   125264; 130032]%N.

Definition to_decimal (c : N) : option N :=
  option_map (fun zero => (c - zero)%N)
    (find (fun zero => ((zero <=? c) && (c <? zero + 10))%N) decimal_zeros).

(** [_PyUnicode_TransformDecimalAndSpaceToASCII], one code point. *)
Definition to_ascii (c : N) : N :=
  if (c <? 127)%N then c
  else if unicode_space c then 32%N
  else match to_decimal c with
       | Some d => (48 + d)%N
       | None => 63%N
       end.

(** [Py_ISSPACE]: tab, line feed, vertical tab, form feed, carriage return
    and space. *)
Definition is_space (c : N) : bool :=
  ((9 <=? c) && (c <=? 13) || (c =? 32))%N.

Definition digit_of (c : N) : option Z :=
  if ((48 <=? c) && (c <=? 57))%N then Some (Z.of_N c - 48) else None.

Fixpoint lstrip (s : list N) : list N :=
  match s with
  | c :: s' => if is_space c then lstrip s' else s
  | [] => []
  end.

Definition strip (s : list N) : list N :=
  rev (lstrip (rev (lstrip s))).

(** Digits with single underscores between them, most significant first.
    [after_digit] tells whether the previous character was a digit, so
    whether an underscore or the end of the text is allowed here. *)
Fixpoint digits (after_digit : bool) (acc : Z) (s : list N) : option Z :=
  match s with
  | [] => if after_digit then Some acc else None
  | c :: s' =>
      match digit_of c with
      | Some d => digits true (10 * acc + d) s'
      | None =>
          if (c =? 95)%N && after_digit
          then match s' with
               | [] => None
               | c' :: _ =>
                   match digit_of c' with
                   | Some _ => digits false acc s'
                   | None => None
                   end
               end
          else None
      end
  end.

(** [sys.int_info.default_max_str_digits]: leading zeros count, underscores
    do not. *)
Definition max_str_digits : N := 4300.

Definition digit_count (s : list N) : N :=
  N.of_nat
    (List.length (filter (fun c => (48 <=? c) && (c <=? 57))%N s)).

(** [PyLong_FromString] in base ten. *)
Definition literal (s : list N) : option Z :=
  let body := strip s in
  if (max_str_digits <? digit_count body)%N then None else
  match body with
  | c :: s' =>
      if (c =? 45)%N then option_map Z.opp (digits false 0 s')
      else if (c =? 43)%N then digits false 0 s'
      else digits false 0 (c :: s')
  | [] => None
  end.

Definition of_text (s : string) : option Z :=
  match code_points (map N_of_ascii (list_ascii_of_string s)) with
  | Some text => literal (map to_ascii text)
  | None => None
  end.

(** Truncation toward zero of [m * 2^e]. *)
Definition of_float (f : pyfloat) : option Z :=
  match f with
  | FNan => None
  | FInf _ => None
  | FFinite m e =>
      Some (if 0 <=? e then m * 2 ^ e else Z.quot m (2 ^ (- e)))
  end.

Definition int (v : json) : option Z :=
  match v with
  | JNull => None
  | JBool b => Some (if b then 1 else 0)
  | JInt n => Some n
  | JFloat f => of_float f
  | JStr s => of_text s
  | JArr _ => None
  | JObj _ => None
  end.

End PyInt.

(* ================================================================= *)
(** ** Rendering *)

(** [str(d)] for a [Decimal] with two fractional digits, [d] in hundredths. *)
Definition str_nat (n : Z) : string :=
  NilZero.string_of_uint (N.to_uint (Z.to_N n)).

Definition str_decimal (d : Z) : string :=
  let a := Z.abs d in
  let frac := a mod 100 in
  (if d <? 0 then "-" else "")
    +++ str_nat (a / 100) +++ "."
    +++ (if frac <? 10 then "0" else "") +++ str_nat frac.

Module Uuid.

(** [uuid.uuid4()] is a random 128-bit number; the handlers receive it as
    an input.  [hex] is its 32 lower-case hexadecimal digits. *)

Definition hex_digit (n : N) : ascii :=
  ascii_of_N (if (n <? 10)%N then 48 + n else 87 + n).

Fixpoint hex_from (k : nat) (u : N) : list ascii :=
  match k with
  | O => []
  | S k' => hex_digit ((u / 16 ^ N.of_nat k') mod 16) :: hex_from k' u
  end.

Definition hex (u : N) : list ascii := hex_from 32 u.

(** [str.upper] on one ASCII character. *)
Definition upper_char (c : ascii) : ascii :=
  let n := N_of_ascii c in
  if ((97 <=? n) && (n <=? 122))%N then ascii_of_N (n - 32) else c.

Definition upper (s : list ascii) : list ascii := map upper_char s.

(** [f'{prefix}{uuid.uuid4().hex[:8].upper()}'] *)
Definition tagged (prefix : string) (u : N) : string :=
  prefix +++ string_of_list_ascii (upper (firstn 8 (hex u))).

Definition is_upper_hex (c : ascii) : bool :=
  let n := N_of_ascii c in
  ((48 <=? n) && (n <=? 57) || (65 <=? n) && (n <=? 70))%N.

End Uuid.

(* ================================================================= *)
(** ** models.py: the tables *)

(** One module per model class, so that the columns keep their names.  A
    nullable foreign key is an [option]; the other nullable columns are
    always filled by the handlers and carry plain values. *)

Module User.
Record t : Type := mk {
  id : Z;
  username : string;
  email : string;
  password : string;
  first_name : string;
  last_name : string;
  is_active : bool;
  is_admin : bool }.

Definition with_names (fn ln : string) (u : t) : t :=
  mk (id u) (username u) (email u) (password u) fn ln
     (is_active u) (is_admin u).
Definition with_email (e : string) (u : t) : t :=
  mk (id u) (username u) e (password u) (first_name u) (last_name u)
     (is_active u) (is_admin u).
End User.

Module Product.
Record t : Type := mk {
  id : Z;
  name : string;
  description : string;
  price : Z;
  stock : Z;
  sku : string;
  is_active : bool;
  category_id : option Z }.

Definition with_stock (s : Z) (p : t) : t :=
  mk (id p) (name p) (description p) (price p) s (sku p)
     (is_active p) (category_id p).
Definition with_is_active (b : bool) (p : t) : t :=
  mk (id p) (name p) (description p) (price p) (stock p) (sku p)
     b (category_id p).
End Product.

Module Address.
Record t : Type := mk {
  id : Z;
  street : string;
  city : string;
  state : string;
  country : string;
  zip_code : string;
  is_default : bool;
  address_type : string;
  user_id : Z }.

Definition with_is_default (b : bool) (a : t) : t :=
  mk (id a) (street a) (city a) (state a) (country a) (zip_code a)
     b (address_type a) (user_id a).
Definition with_id (k : Z) (a : t) : t :=
  mk k (street a) (city a) (state a) (country a) (zip_code a)
     (is_default a) (address_type a) (user_id a).
End Address.

Module Category.
Record t : Type := mk {
  id : Z;
  name : string;
  description : string }.
End Category.

Module Order.
Record t : Type := mk {
  id : Z;
  order_number : string;
  status : string;
  total_amount : Z;
  user_id : Z;
  shipping_address_id : option Z;
  billing_address_id : option Z }.

Definition with_total_amount (d : Z) (o : t) : t :=
  mk (id o) (order_number o) (status o) d (user_id o)
     (shipping_address_id o) (billing_address_id o).
End Order.

Module OrderItem.
Record t : Type := mk {
  id : Z;
  quantity : Z;
  price : Z;
  order_id : Z;
  product_id : Z }.
End OrderItem.

Module Review.
Record t : Type := mk {
  id : Z;
  rating : Z;
  comment : string;
  user_id : Z;
  product_id : Z }.
End Review.

Module CartItem.
Record t : Type := mk {
  id : Z;
  quantity : Z;
  user_id : Z;
  product_id : Z }.

Definition with_quantity (q : Z) (c : t) : t :=
  mk (id c) q (user_id c) (product_id c).
End CartItem.

Module ProductImage.
Record t : Type := mk {
  id : Z;
  image_url : string;
  alt_text : string;
  is_primary : bool;
  product_id : Z }.
End ProductImage.

(** The database: each table is the list of its rows in primary-key order,
    which is the order [.all()] and [.first()] see. *)
Record Db : Type := mkDb {
  users : list User.t;
  products : list Product.t;
  addresses : list Address.t;
  categories : list Category.t;
  orders : list Order.t;
  order_items : list OrderItem.t;
  reviews : list Review.t;
  cart_items : list CartItem.t;
  product_images : list ProductImage.t }.

Definition with_users (f : list User.t -> list User.t) (d : Db) : Db :=
  mkDb (f (users d)) (products d) (addresses d) (categories d) (orders d)
       (order_items d) (reviews d) (cart_items d) (product_images d).
Definition with_products (f : list Product.t -> list Product.t) (d : Db) : Db :=
  mkDb (users d) (f (products d)) (addresses d) (categories d) (orders d)
       (order_items d) (reviews d) (cart_items d) (product_images d).
Definition with_addresses (f : list Address.t -> list Address.t) (d : Db)
  : Db :=
  mkDb (users d) (products d) (f (addresses d)) (categories d) (orders d)
       (order_items d) (reviews d) (cart_items d) (product_images d).
Definition with_categories (f : list Category.t -> list Category.t) (d : Db)
  : Db :=
  mkDb (users d) (products d) (addresses d) (f (categories d)) (orders d)
       (order_items d) (reviews d) (cart_items d) (product_images d).
Definition with_orders (f : list Order.t -> list Order.t) (d : Db) : Db :=
  mkDb (users d) (products d) (addresses d) (categories d) (f (orders d))
       (order_items d) (reviews d) (cart_items d) (product_images d).
Definition with_order_items (f : list OrderItem.t -> list OrderItem.t)
  (d : Db) : Db :=
  mkDb (users d) (products d) (addresses d) (categories d) (orders d)
       (f (order_items d)) (reviews d) (cart_items d) (product_images d).
Definition with_reviews (f : list Review.t -> list Review.t) (d : Db) : Db :=
  mkDb (users d) (products d) (addresses d) (categories d) (orders d)
       (order_items d) (f (reviews d)) (cart_items d) (product_images d).
Definition with_cart_items (f : list CartItem.t -> list CartItem.t) (d : Db)
  : Db :=
  mkDb (users d) (products d) (addresses d) (categories d) (orders d)
       (order_items d) (reviews d) (f (cart_items d)) (product_images d).

(** The primary key of a new row: one more than the largest in the table
    (SQLite's rowid rule; SQLite is the fallback [DATABASE_URI]). *)
Definition next_id (ids : list Z) : Z := 1 + fold_right Z.max 0 ids.

(** [UPDATE ... WHERE id = k]: the rows with primary key [k] are replaced. *)
Definition update_where {A : Type} (key : A -> Z) (k : Z) (f : A -> A)
  (rows : list A) : list A :=
  map (fun r => if key r =? k then f r else r) rows.

(** [DELETE ... WHERE id = k]. *)
Definition delete_where {A : Type} (key : A -> Z) (k : Z) (rows : list A)
  : list A :=
  filter (fun r => negb (key r =? k)) rows.

(* ================================================================= *)
(** ** The unit of work *)

(** [db.session]: the handler reads and writes [working], the view of its
    open transaction; [committed] is what other requests, and the next
    request, see.  An [INSERT] or [UPDATE] issued by the ORM reaches
    [working] when the object is added or changed (at the latest at the
    flush that precedes the next query). *)
Record Session : Type := mkSession {
  committed : Db;
  working : Db }.

(** What a handler can raise instead of returning: [abort(404)] from
    [get_or_404] and [paginate], or an exception nobody catches. *)
Inductive Exn : Type :=
| NotFound
| Uncaught.

Inductive Result (A : Type) : Type :=
| Val (a : A)
| Exc (e : Exn).
Arguments Val {A} a.
Arguments Exc {A} e.

Definition M (A : Type) : Type := Session -> Result A * Session.

Definition ret {A : Type} (a : A) : M A := fun s => (Val a, s).

Definition bind {A B : Type} (c : M A) (k : A -> M B) : M B :=
  fun s =>
    match c s with
    | (Val a, s') => k a s'
    | (Exc e, s') => (Exc e, s')
    end.

Definition raise {A : Type} (e : Exn) : M A := fun s => (Exc e, s).

Notation "x <- c ;; k" := (bind c (fun x => k))
  (at level 100, c at next level, right associativity).
Notation "c ;;; k" := (bind c (fun _ => k))
  (at level 100, right associativity).

(** [Model.query...]: a read of the transaction's view. *)
Definition query {A : Type} (f : Db -> A) : M A :=
  fun s => (Val (f (working s)), s).

(** A write inside the transaction. *)
Definition write (f : Db -> Db) : M unit :=
  fun s => (Val tt, mkSession (committed s) (f (working s))).

(** [db.session.commit()] *)
Definition commit : M unit :=
  fun s => (Val tt, mkSession (working s) (working s)).

(** [db.session.rollback()] *)
Definition rollback : M unit :=
  fun s => (Val tt, mkSession (committed s) (committed s)).

(** [Model.query.get_or_404(k)] *)
Definition get_or_404 {A : Type} (table : Db -> list A) (key : A -> Z) (k : Z)
  : M A :=
  r <- query (fun d => find (fun r => key r =? k) (table d)) ;;
  match r with
  | Some row => ret row
  | None => raise NotFound
  end.

(** A value that must not be [None]: using it raises [AttributeError]. *)
Definition deref {A : Type} (o : option A) : M A :=
  match o with
  | Some a => ret a
  | None => raise Uncaught
  end.

(** A [unique=True] column: the [INSERT] raises [IntegrityError] when the
    value is already in the table. *)
Definition check_unique (taken : Db -> list string) (v : string) : M unit :=
  l <- query taken ;;
  if existsb (String.eqb v) l then raise Uncaught else ret tt.

(* ================================================================= *)
(** ** Responses *)

Record Response : Type := mkResponse {
  status : Z;
  body : json }.

(** [jsonify({'error': msg}), code] *)
Definition error (code : Z) (msg : string) : Response :=
  mkResponse code (JObj [("error", JStr msg)]).

(** The three [@app.errorhandler] functions. *)
Definition not_found : Response := error 404 "Not found".
Definition bad_request : Response := error 400 "Bad request".
Definition server_error : Response := error 500 "Internal server error".

(** One request: the handler runs in a fresh session on the committed
    database; an [abort(404)] goes to [not_found], any other exception to
    [server_error]; what was not committed is discarded with the session. *)
Definition serve (h : M Response) (db : Db) : Response * Db :=
  match h (mkSession db db) with
  | (Val r, s) => (r, committed s)
  | (Exc NotFound, s) => (not_found, committed s)
  | (Exc Uncaught, s) => (server_error, committed s)
  end.

(** Python truthiness of an optional text field: [not data.get(k)]. *)
Definition falsy (o : option string) : bool :=
  match o with
  | Some s => String.eqb s ""
  | None => true
  end.

Definition opt_json {A : Type} (f : A -> json) (o : option A) : json :=
  match o with
  | Some a => f a
  | None => JNull
  end.

(* ================================================================= *)
(** ** app.py: the route handlers *)

(** Request bodies, after [request.get_json()].  A field is [None] when the
    key is absent from the object.  The fields that a handler passes to
    [int()] are kept as raw JSON values; the others have the type of the
    column they are stored in. *)

Record RegisterBody : Type := {
  reg_username : option string;
  reg_email : option string;
  reg_password : option string;
  reg_first_name : option string;
  reg_last_name : option string }.

Record LoginBody : Type := {
  login_username : option string;
  login_password : option string }.

Record ProfileBody : Type := {
  prof_first_name : option string;
  prof_last_name : option string;
  prof_email : option string;
  prof_password : option string }.

(** The ["price"] field as [Decimal(data['price'])] takes it: an amount
    with at most two decimals, given in hundredths, or a value on which the
    constructor raises ([InvalidOperation] for a text that is no number,
    [TypeError] for null, a list or an object). *)
Inductive PriceField : Type :=
| Amount (hundredths : Z)
| NotDecimal.

Record ProductBody : Type := {
  prod_name : option string;
  prod_description : option string;
  prod_price : option PriceField;
  prod_stock : option Z;
  prod_sku : option string;
  prod_category_id : option (option Z);
  prod_is_active : option bool }.

Record CategoryBody : Type := {
  cat_name : option string;
  cat_description : option string }.

Record CartBody : Type := {
  cart_product_id : option Z;
  cart_quantity : option json }.

Record OrderBody : Type := {
  shipping_address_id : option Z;
  billing_address_id : option Z }.

Record ReviewBody : Type := {
  rev_rating : option json;
  rev_comment : option string }.

Record AddressBody : Type := {
  addr_street : option string;
  addr_city : option string;
  addr_state : option string;
  addr_country : option string;
  addr_zip_code : option string;
  addr_is_default : option bool;
  addr_address_type : option string }.

(** [data.get(k, '')] *)
Definition get_text (o : option string) : string :=
  match o with
  | Some s => s
  | None => ""
  end.

Definition present {A : Type} (o : option A) : bool :=
  match o with
  | Some _ => true
  | None => false
  end.

(** models.py, class [User] (lines 3 to 23): columns and relationships, and
    no method.  [user.check_password(...)] and [user.set_password(...)] look
    up an attribute that the class does not have, so Python raises
    [AttributeError] at the lookup, before any call. *)
Definition check_password (user : User.t) (password : string) : M bool :=
  raise Uncaught.

Definition set_password (user : User.t) (password : string) : M unit :=
  raise Uncaught.

Section App.

(** [flask_jwt_extended.create_access_token(identity=...)] *)
Variable create_access_token : Z -> string.

Definition user_summary (u : User.t) : json :=
  JObj [("id", JInt (User.id u));
        ("username", JStr (User.username u));
        ("email", JStr (User.email u));
        ("first_name", JStr (User.first_name u));
        ("last_name", JStr (User.last_name u))].

Definition by_username (n : string) (d : Db) : option User.t :=
  find (fun u => String.eqb (User.username u) n) (users d).

Definition by_email (e : string) (d : Db) : option User.t :=
  find (fun u => String.eqb (User.email u) e) (users d).

(* ------------------------------------------------------------- *)
(** *** Authentication routes *)

Definition register (data : RegisterBody) : M Response :=
  match reg_username data, reg_email data, reg_password data with
  | Some username, Some email, Some password =>
      taken <- query (by_username username) ;;
      if present taken then ret (error 400 "Username already exists") else
      taken <- query (by_email email) ;;
      if present taken then ret (error 400 "Email already exists") else
      new_id <- query (fun d => next_id (map User.id (users d))) ;;
      let new_user :=
        User.mk new_id username email ""
          (get_text (reg_first_name data)) (get_text (reg_last_name data))
          true false in
      set_password new_user password ;;;
      write (with_users (fun l => l ++ [new_user])) ;;;
      commit ;;;
      let access_token := create_access_token (User.id new_user) in
      ret (mkResponse 201
             (JObj [("message", JStr "User registered successfully");
                    ("access_token", JStr access_token);
                    ("user", user_summary new_user)]))
  | _, _, _ => ret (error 400 "Missing required fields")
  end.

Definition login (data : LoginBody) : M Response :=
  if falsy (login_username data) || falsy (login_password data)
  then ret (error 400 "Missing username or password") else
  user <- query (by_username (get_text (login_username data))) ;;
  rejected <- match user with
              | None => ret true
              | Some u =>
                  ok <- check_password u (get_text (login_password data)) ;;
                  ret (negb ok)
              end ;;
  if rejected then ret (error 401 "Invalid username or password") else
  u <- deref user ;;
  let access_token := create_access_token (User.id u) in
  ret (mkResponse 200
         (JObj [("message", JStr "Login successful");
                ("access_token", JStr access_token);
                ("user", user_summary u)])).

(* ------------------------------------------------------------- *)
(** *** User routes *)

Definition update_user_profile (current_user_id : Z) (data : ProfileBody)
  : M Response :=
  user <- get_or_404 users User.id current_user_id ;;
  let user :=
    User.with_names
      (match prof_first_name data with
       | Some v => v
       | None => User.first_name user
       end)
      (match prof_last_name data with
       | Some v => v
       | None => User.last_name user
       end) user in
  write (with_users (update_where User.id current_user_id (fun _ => user))) ;;;
  clash <- match prof_email data with
           | Some e =>
               other <- query (by_email e) ;;
               ret (negb (String.eqb e (User.email user)) && present other)
           | None => ret false
           end ;;
  if clash then ret (error 400 "Email already exists") else
  let user :=
    match prof_email data with
    | Some e => User.with_email e user
    | None => user
    end in
  match prof_password data with
  | Some p => set_password user p
  | None => ret tt
  end ;;;
  write (with_users (update_where User.id current_user_id (fun _ => user))) ;;;
  commit ;;;
  ret (mkResponse 200
         (JObj [("message", JStr "Profile updated successfully");
                ("user", user_summary user)])).

(* ------------------------------------------------------------- *)
(** *** Product routes *)

(** [query.paginate(page=page, per_page=per_page)] of Flask-SQLAlchemy,
    with its default [error_out=True]: a page or page size below 1 aborts
    with 404, and so does an empty page other than the first. *)
Definition paginate {A : Type} (rows : list A) (page per_page : Z)
  : M (list A) :=
  if (page <? 1) || (per_page <? 1) then raise NotFound else
  let items :=
    firstn (Z.to_nat per_page)
           (skipn (Z.to_nat ((page - 1) * per_page)) rows) in
  match items with
  | [] => if page =? 1 then ret items else raise NotFound
  | _ :: _ => ret items
  end.

(** [pagination.pages] *)
Definition pages (total per_page : Z) : Z :=
  if total =? 0 then 0 else (total + per_page - 1) / per_page.

Definition opt_eqb (a b : option Z) : bool :=
  match a, b with
  | Some x, Some y => x =? y
  | None, None => true
  | _, _ => false
  end.

Definition primary_image (product_id : Z) (d : Db) : option ProductImage.t :=
  find (fun i => (ProductImage.product_id i =? product_id)
                 && ProductImage.is_primary i)
       (product_images d).

Definition product_entry (d : Db) (product : Product.t) : json :=
  let image_url :=
    option_map ProductImage.image_url (primary_image (Product.id product) d) in
  JObj [("id", JInt (Product.id product));
        ("name", JStr (Product.name product));
        ("description", JStr (Product.description product));
        ("price", JStr (str_decimal (Product.price product)));
        ("stock", JInt (Product.stock product));
        ("sku", JStr (Product.sku product));
        ("category_id", opt_json JInt (Product.category_id product));
        ("image_url", opt_json JStr image_url)].

(** The rows that [get_products] selects before pagination.  A
    [category_id] of 0 is falsy and filters nothing. *)
Definition listed (category_id : option Z) (d : Db) : list Product.t :=
  let active := filter Product.is_active (products d) in
  match category_id with
  | Some c =>
      if c =? 0 then active
      else filter (fun p => opt_eqb (Product.category_id p) (Some c)) active
  | None => active
  end.

Definition get_products (page per_page : Z) (category_id : option Z)
  : M Response :=
  rows <- query (listed category_id) ;;
  items <- paginate rows page per_page ;;
  result <- query (fun d => map (product_entry d) items) ;;
  let total := Z.of_nat (List.length rows) in
  ret (mkResponse 200
         (JObj [("products", JArr result);
                ("total", JInt total);
                ("pages", JInt (pages total per_page));
                ("current_page", JInt page)])).

Definition image_entry (image : ProductImage.t) : json :=
  JObj [("id", JInt (ProductImage.id image));
        ("url", JStr (ProductImage.image_url image));
        ("alt_text", JStr (ProductImage.alt_text image));
        ("is_primary", JBool (ProductImage.is_primary image))].

(** One entry of the review list; [review.user.username] raises when the
    reviewing user is gone. *)
Definition review_entry (d : Db) (review : Review.t) : option json :=
  match find (fun u => User.id u =? Review.user_id review) (users d) with
  | Some user =>
      Some (JObj [("id", JInt (Review.id review));
                  ("rating", JInt (Review.rating review));
                  ("comment", JStr (Review.comment review));
                  ("user_id", JInt (Review.user_id review));
                  ("username", JStr (User.username user))])
  | None => None
  end.

(** A [for] loop that appends to a list, with a body that can raise. *)
Fixpoint collect {A B : Type} (f : A -> option B) (l : list A)
  : option (list B) :=
  match l with
  | [] => Some []
  | a :: l' =>
      match f a with
      | Some b => option_map (cons b) (collect f l')
      | None => None
      end
  end.

Definition category_of (product : Product.t) (d : Db) : option Category.t :=
  match Product.category_id product with
  | Some c => find (fun k => Category.id k =? c) (categories d)
  | None => None
  end.

Definition product_detail (product : Product.t) (images reviews : list json)
  (category : option Category.t) : json :=
  JObj [("id", JInt (Product.id product));
        ("name", JStr (Product.name product));
        ("description", JStr (Product.description product));
        ("price", JStr (str_decimal (Product.price product)));
        ("stock", JInt (Product.stock product));
        ("sku", JStr (Product.sku product));
        ("category_id", opt_json JInt (Product.category_id product));
        ("category_name",
          opt_json JStr (option_map Category.name category));
        ("images", JArr images);
        ("reviews", JArr reviews)].

Definition get_product (product_id : Z) : M Response :=
  product <- get_or_404 products Product.id product_id ;;
  images <- query (fun d =>
              map image_entry
                  (filter (fun i => ProductImage.product_id i =? product_id)
                          (product_images d))) ;;
  found <- query (fun d =>
             collect (review_entry d)
                     (filter (fun r => Review.product_id r =? product_id)
                             (reviews d))) ;;
  reviews <- deref found ;;
  category <- query (category_of product) ;;
  ret (mkResponse 200 (product_detail product images reviews category)).

(** The guard that opens the administrator routes. *)
Definition admin_only (current_user_id : Z) (k : M Response) : M Response :=
  user <- get_or_404 users User.id current_user_id ;;
  if negb (User.is_admin user) then ret (error 403 "Unauthorized") else k.

Definition product_summary (p : Product.t) : list (string * json) :=
  [("id", JInt (Product.id p));
   ("name", JStr (Product.name p));
   ("price", JStr (str_decimal (Product.price p)));
   ("stock", JInt (Product.stock p))].

(** [Decimal(v)] *)
Definition Decimal_of (v : PriceField) : M Z :=
  match v with
  | Amount d => ret d
  | NotDecimal => raise Uncaught
  end.

Definition create_product (current_user_id : Z) (data : ProductBody)
  (uuid4 : N) : M Response :=
  admin_only current_user_id
    match prod_name data, prod_price data, prod_stock data,
          prod_category_id data with
    | Some name, Some price, Some stock, Some category_id =>
        let sku :=
          match prod_sku data with
          | Some s => s
          | None => Uuid.tagged "SKU-" uuid4
          end in
        price <- Decimal_of price ;;
        new_id <- query (fun d => next_id (map Product.id (products d))) ;;
        let new_product :=
          Product.mk new_id name (get_text (prod_description data)) price
                     stock sku true category_id in
        check_unique (fun d => map Product.sku (products d)) sku ;;;
        write (with_products (fun l => l ++ [new_product])) ;;;
        commit ;;;
        ret (mkResponse 201
               (JObj [("message", JStr "Product created successfully");
                      ("product",
                        JObj (product_summary new_product
                              ++ [("sku", JStr (Product.sku new_product))]))]))
    | _, _, _, _ => ret (error 400 "Missing required fields")
    end.

Definition or_else {A : Type} (o : option A) (a : A) : A :=
  match o with
  | Some v => v
  | None => a
  end.

Definition update_product (current_user_id product_id : Z)
  (data : ProductBody) : M Response :=
  admin_only current_user_id
    (product <- get_or_404 products Product.id product_id ;;
     price <- match prod_price data with
              | Some v => Decimal_of v
              | None => ret (Product.price product)
              end ;;
     let product :=
       Product.mk (Product.id product)
         (or_else (prod_name data) (Product.name product))
         (or_else (prod_description data) (Product.description product))
         price
         (or_else (prod_stock data) (Product.stock product))
         (Product.sku product)
         (or_else (prod_is_active data) (Product.is_active product))
         (or_else (prod_category_id data) (Product.category_id product)) in
     write (with_products
              (update_where Product.id product_id (fun _ => product))) ;;;
     commit ;;;
     ret (mkResponse 200
            (JObj [("message", JStr "Product updated successfully");
                   ("product",
                     JObj (product_summary product
                           ++ [("is_active",
                                 JBool (Product.is_active product))]))]))).

Definition delete_product (current_user_id product_id : Z) : M Response :=
  admin_only current_user_id
    (product <- get_or_404 products Product.id product_id ;;
     write (with_products
              (update_where Product.id product_id
                 (Product.with_is_active false))) ;;;
     commit ;;;
     ret (mkResponse 200
            (JObj [("message", JStr "Product deleted successfully")]))).

(* ------------------------------------------------------------- *)
(** *** Category routes *)

Definition create_category (current_user_id : Z) (data : CategoryBody)
  : M Response :=
  admin_only current_user_id
    match cat_name data with
    | None => ret (error 400 "Category name is required")
    | Some name =>
        taken <- query (fun d =>
                   find (fun c => String.eqb (Category.name c) name)
                        (categories d)) ;;
        if present taken then ret (error 400 "Category already exists") else
        new_id <- query (fun d => next_id (map Category.id (categories d))) ;;
        let new_category :=
          Category.mk new_id name (get_text (cat_description data)) in
        write (with_categories (fun l => l ++ [new_category])) ;;;
        commit ;;;
        ret (mkResponse 201
               (JObj [("message", JStr "Category created successfully");
                      ("category",
                        JObj [("id", JInt (Category.id new_category));
                              ("name", JStr (Category.name new_category));
                              ("description",
                                JStr (Category.description new_category))])]))
    end.

(* ------------------------------------------------------------- *)
(** *** Cart routes *)

(** [int(data[k])]; the exception it raises is not caught. *)
Definition int_ (v : json) : M Z :=
  match PyInt.int v with
  | Some n => ret n
  | None => raise Uncaught
  end.

Definition cart_of (user_id : Z) (d : Db) : list CartItem.t :=
  filter (fun c => CartItem.user_id c =? user_id) (cart_items d).

Definition cart_entry (user_id product_id : Z) (d : Db)
  : option CartItem.t :=
  find (fun c => (CartItem.user_id c =? user_id)
                 && (CartItem.product_id c =? product_id))
       (cart_items d).

Definition own_cart_item (item_id user_id : Z) (d : Db)
  : option CartItem.t :=
  find (fun c => (CartItem.id c =? item_id)
                 && (CartItem.user_id c =? user_id))
       (cart_items d).

Definition active_product (product_id : Z) (d : Db) : option Product.t :=
  find (fun p => (Product.id p =? product_id) && Product.is_active p)
       (products d).

Definition cart_item_json (c : CartItem.t) : json :=
  JObj [("id", JInt (CartItem.id c));
        ("product_id", JInt (CartItem.product_id c));
        ("quantity", JInt (CartItem.quantity c))].

Definition add_to_cart (current_user_id : Z) (data : CartBody)
  : M Response :=
  match cart_product_id data, cart_quantity data with
  | Some product_id, Some raw =>
      quantity <- int_ raw ;;
      product <- query (active_product product_id) ;;
      match product with
      | None => ret (error 404 "Product not found or unavailable")
      | Some product =>
          if quantity <=? 0
          then ret (error 400 "Quantity must be greater than zero") else
          if Product.stock product <? quantity
          then ret (error 400 "Not enough stock available") else
          existing <- query (cart_entry current_user_id product_id) ;;
          cart_item <-
            match existing with
            | Some cart_item =>
                let q := CartItem.quantity cart_item + quantity in
                write (with_cart_items
                         (update_where CartItem.id (CartItem.id cart_item)
                            (CartItem.with_quantity q))) ;;;
                ret (CartItem.with_quantity q cart_item)
            | None =>
                new_id <- query (fun d =>
                            next_id (map CartItem.id (cart_items d))) ;;
                let cart_item :=
                  CartItem.mk new_id quantity current_user_id product_id in
                write (with_cart_items (fun l => l ++ [cart_item])) ;;;
                ret cart_item
            end ;;
          commit ;;;
          ret (mkResponse 200
                 (JObj [("message", JStr "Product added to cart");
                        ("cart_item", cart_item_json cart_item)]))
      end
  | _, _ => ret (error 400 "Product ID and quantity are required")
  end.

Definition update_cart_item (current_user_id item_id : Z) (data : CartBody)
  : M Response :=
  found <- query (own_cart_item item_id current_user_id) ;;
  match found with
  | None => ret (error 404 "Cart item not found")
  | Some cart_item =>
      match cart_quantity data with
      | None => ret (error 400 "Quantity is required")
      | Some raw =>
          quantity <- int_ raw ;;
          if quantity <=? 0
          then ret (error 400 "Quantity must be greater than zero") else
          owner <- query (fun d =>
                     find (fun p => Product.id p
                                    =? CartItem.product_id cart_item)
                          (products d)) ;;
          product <- deref owner ;;
          if Product.stock product <? quantity
          then ret (error 400 "Not enough stock available") else
          write (with_cart_items
                   (update_where CartItem.id (CartItem.id cart_item)
                      (CartItem.with_quantity quantity))) ;;;
          commit ;;;
          ret (mkResponse 200
                 (JObj [("message", JStr "Cart item updated");
                        ("cart_item",
                          cart_item_json
                            (CartItem.with_quantity quantity cart_item))]))
      end
  end.

Definition remove_from_cart (current_user_id item_id : Z) : M Response :=
  found <- query (own_cart_item item_id current_user_id) ;;
  match found with
  | None => ret (error 404 "Cart item not found")
  | Some cart_item =>
      write (with_cart_items
               (delete_where CartItem.id (CartItem.id cart_item))) ;;;
      commit ;;;
      ret (mkResponse 200 (JObj [("message", JStr "Item removed from cart")]))
  end.

(* ------------------------------------------------------------- *)
(** *** Order routes *)

Definition own_address (address_id user_id : Z) (d : Db)
  : option Address.t :=
  find (fun a => (Address.id a =? address_id)
                 && (Address.user_id a =? user_id))
       (addresses d).

Definition product_of (c : CartItem.t) (d : Db) : option Product.t :=
  find (fun p => Product.id p =? CartItem.product_id c) (products d).

(** The re-check of the order loop. *)
Definition unavailable (product : Product.t) (c : CartItem.t) : bool :=
  negb (Product.is_active product)
  || (Product.stock product <? CartItem.quantity c).

Definition unavailable_message (product : Product.t) : string :=
  "Product " +++ Product.name product
    +++ " is not available or not enough in stock".

(** The loop "Create order items and update stock".  It ends either with
    the response of its early [return] or with the accumulated total. *)
Fixpoint place_items (order_id : Z) (cart_items : list CartItem.t)
  (total_amount : Z) : M (Response + Z) :=
  match cart_items with
  | [] => ret (inr total_amount)
  | cart_item :: rest =>
      loaded <- query (product_of cart_item) ;;
      product <- deref loaded ;;
      if unavailable product cart_item
      then
        rollback ;;;
        (* the rollback expires [product]; its name is loaded again *)
        loaded <- query (product_of cart_item) ;;
        product <- deref loaded ;;
        ret (inl (error 400 (unavailable_message product)))
      else
        new_id <- query (fun d =>
                    next_id (map OrderItem.id (order_items d))) ;;
        let order_item :=
          OrderItem.mk new_id (CartItem.quantity cart_item)
                       (Product.price product) order_id
                       (Product.id product) in
        write (with_products
                 (update_where Product.id (Product.id product)
                    (Product.with_stock
                       (Product.stock product
                        - CartItem.quantity cart_item)))) ;;;
        let item_total := Product.price product * CartItem.quantity cart_item in
        write (with_order_items (fun l => l ++ [order_item])) ;;;
        place_items order_id rest (total_amount + item_total)
  end.

(** The loop "Clear cart". *)
Definition clear_cart (cart_items : list CartItem.t)
  (rows : list CartItem.t) : list CartItem.t :=
  fold_left (fun l c => delete_where CartItem.id (CartItem.id c) l)
            cart_items rows.

Definition create_order (current_user_id : Z) (data : OrderBody)
  (uuid4 : N) : M Response :=
  user <- get_or_404 users User.id current_user_id ;;
  match shipping_address_id data with
  | None => ret (error 400 "Shipping address is required")
  | Some shipping_id =>
      shipping <- query (own_address shipping_id current_user_id) ;;
      match shipping with
      | None => ret (error 400 "Invalid shipping address")
      | Some shipping_address =>
          let billing_id := or_else (billing_address_id data) shipping_id in
          billing <- query (own_address billing_id current_user_id) ;;
          match billing with
          | None => ret (error 400 "Invalid billing address")
          | Some billing_address =>
              cart_items <- query (cart_of current_user_id) ;;
              match cart_items with
              | [] => ret (error 400 "Cart is empty")
              | _ :: _ =>
                  let order_number := Uuid.tagged "ORD-" uuid4 in
                  new_id <- query (fun d =>
                              next_id (map Order.id (orders d))) ;;
                  let new_order :=
                    Order.mk new_id order_number "pending" 0
                             current_user_id
                             (Some (Address.id shipping_address))
                             (Some (Address.id billing_address)) in
                  check_unique (fun d => map Order.order_number (orders d))
                               order_number ;;;
                  write (with_orders (fun l => l ++ [new_order])) ;;;
                  outcome <- place_items new_id cart_items 0 ;;
                  match outcome with
                  | inl response => ret response
                  | inr total_amount =>
                      write (with_orders
                               (update_where Order.id new_id
                                  (Order.with_total_amount total_amount))) ;;;
                      write (with_cart_items (clear_cart cart_items)) ;;;
                      commit ;;;
                      ret (mkResponse 201
                             (JObj [("message",
                                      JStr "Order created successfully");
                                    ("order",
                                      JObj [("id", JInt new_id);
                                            ("order_number",
                                              JStr order_number);
                                            ("status", JStr "pending");
                                            ("total_amount",
                                              JStr (str_decimal
                                                      total_amount))])]))
                  end
              end
          end
      end
  end.

(* ------------------------------------------------------------- *)
(** *** Reviews routes *)

Definition review_by (user_id product_id : Z) (d : Db) : option Review.t :=
  find (fun r => (Review.user_id r =? user_id)
                 && (Review.product_id r =? product_id))
       (reviews d).

Definition create_review (current_user_id product_id : Z)
  (data : ReviewBody) : M Response :=
  product <- get_or_404 products Product.id product_id ;;
  match rev_rating data with
  | None => ret (error 400 "Rating is required")
  | Some raw =>
      rating <- int_ raw ;;
      if (rating <? 1) || (rating >? 5)
      then ret (error 400 "Rating must be between 1 and 5") else
      existing_review <- query (review_by current_user_id product_id) ;;
      if present existing_review
      then ret (error 400 "You have already reviewed this product") else
      new_id <- query (fun d => next_id (map Review.id (reviews d))) ;;
      let new_review :=
        Review.mk new_id rating (get_text (rev_comment data))
                  current_user_id product_id in
      write (with_reviews (fun l => l ++ [new_review])) ;;;
      commit ;;;
      ret (mkResponse 201
             (JObj [("message", JStr "Review created successfully");
                    ("review",
                      JObj [("id", JInt (Review.id new_review));
                            ("rating", JInt (Review.rating new_review));
                            ("comment",
                              JStr (Review.comment new_review))])]))
  end.

(* ------------------------------------------------------------- *)
(** *** Address routes *)

Definition addresses_of (user_id : Z) (d : Db) : list Address.t :=
  filter (fun a => Address.user_id a =? user_id) (addresses d).

(** [Address.query.filter_by(user_id=u).update({'is_default': False})] *)
Definition clear_default (user_id : Z) (rows : list Address.t)
  : list Address.t :=
  map (fun a => if Address.user_id a =? user_id
                then Address.with_is_default false a else a) rows.

Definition address_json (a : Address.t) : json :=
  JObj [("id", JInt (Address.id a));
        ("street", JStr (Address.street a));
        ("city", JStr (Address.city a));
        ("state", JStr (Address.state a));
        ("country", JStr (Address.country a));
        ("zip_code", JStr (Address.zip_code a));
        ("is_default", JBool (Address.is_default a));
        ("address_type", JStr (Address.address_type a))].

Definition create_address (current_user_id : Z) (data : AddressBody)
  : M Response :=
  match addr_street data, addr_city data, addr_country data,
        addr_zip_code data with
  | Some street, Some city, Some country, Some zip_code =>
      let new_address :=
        Address.mk 0 street city (get_text (addr_state data)) country
                   zip_code (or_else (addr_is_default data) false)
                   (get_text (addr_address_type data)) current_user_id in
      owned <- query (fun d =>
                 Z.of_nat (List.length (addresses_of current_user_id d))) ;;
      new_address <-
        (if Address.is_default new_address || (owned =? 0)
         then
           write (with_addresses (clear_default current_user_id)) ;;;
           ret (Address.with_is_default true new_address)
         else ret new_address) ;;
      new_id <- query (fun d => next_id (map Address.id (addresses d))) ;;
      let new_address := Address.with_id new_id new_address in
      write (with_addresses (fun l => l ++ [new_address])) ;;;
      commit ;;;
      ret (mkResponse 201
             (JObj [("message", JStr "Address created successfully");
                    ("address", address_json new_address)]))
  | _, _, _, _ => ret (error 400 "Missing required fields")
  end.

(* ------------------------------------------------------------- *)
(** *** The API as a transition system *)

(** The routes that write to the database, and the routes that read the
    catalogue, with what each one receives.  The remaining routes ([GET]
    on the profile, the categories, the cart, the orders and the
    addresses) only read. *)
Inductive Request : Type :=
| Register (data : RegisterBody)
| Login (data : LoginBody)
| UpdateUserProfile (current_user_id : Z) (data : ProfileBody)
| GetProducts (page per_page : Z) (category_id : option Z)
| GetProduct (product_id : Z)
| CreateProduct (current_user_id : Z) (data : ProductBody) (uuid4 : N)
| UpdateProduct (current_user_id product_id : Z) (data : ProductBody)
| DeleteProduct (current_user_id product_id : Z)
| CreateCategory (current_user_id : Z) (data : CategoryBody)
| AddToCart (current_user_id : Z) (data : CartBody)
| UpdateCartItem (current_user_id item_id : Z) (data : CartBody)
| RemoveFromCart (current_user_id item_id : Z)
| CreateOrder (current_user_id : Z) (data : OrderBody) (uuid4 : N)
| CreateReview (current_user_id product_id : Z) (data : ReviewBody)
| CreateAddress (current_user_id : Z) (data : AddressBody).

Definition handler (r : Request) : M Response :=
  match r with
  | Register data => register data
  | Login data => login data
  | UpdateUserProfile u data => update_user_profile u data
  | GetProducts page per_page category_id =>
      get_products page per_page category_id
  | GetProduct product_id => get_product product_id
  | CreateProduct u data uuid4 => create_product u data uuid4
  | UpdateProduct u product_id data => update_product u product_id data
  | DeleteProduct u product_id => delete_product u product_id
  | CreateCategory u data => create_category u data
  | AddToCart u data => add_to_cart u data
  | UpdateCartItem u item_id data => update_cart_item u item_id data
  | RemoveFromCart u item_id => remove_from_cart u item_id
  | CreateOrder u data uuid4 => create_order u data uuid4
  | CreateReview u product_id data => create_review u product_id data
  | CreateAddress u data => create_address u data
  end.

(** The database after a request. *)
Definition step (r : Request) (db : Db) : Db := snd (serve (handler r) db).

End App.

(* ================================================================= *)
(** ** app.py: routes that only read *)

(** [category.products.count()]: every product of the category, active
    or not. *)
Definition product_count (category : Category.t) (d : Db) : Z :=
  Z.of_nat
    (List.length
       (filter (fun p => opt_eqb (Product.category_id p)
                                 (Some (Category.id category)))
               (products d))).

Definition category_entry (d : Db) (category : Category.t) : json :=
  JObj [("id", JInt (Category.id category));
        ("name", JStr (Category.name category));
        ("description", JStr (Category.description category));
        ("product_count", JInt (product_count category d))].

Definition get_categories : M Response :=
  result <- query (fun d => map (category_entry d) (categories d)) ;;
  ret (mkResponse 200 (JObj [("categories", JArr result)])).

(** The loop of [get_cart]: [result] and [total] are its two accumulators;
    [item.product] raises on [None].  The products and sums are those of
    [Decimal] as long as they have at most 28 significant digits, which
    amounts that fit [Numeric(10, 2)] do; beyond, [Decimal] rounds. *)
Fixpoint cart_lines (d : Db) (cart_items : list CartItem.t)
  (result : list json) (total : Z) : option (list json * Z) :=
  match cart_items with
  | [] => Some (result, total)
  | item :: rest =>
      match product_of item d with
      | None => None
      | Some product =>
          let item_total := Product.price product * CartItem.quantity item in
          cart_lines d rest
            (result
             ++ [JObj [("id", JInt (CartItem.id item));
                       ("product_id", JInt (Product.id product));
                       ("product_name", JStr (Product.name product));
                       ("quantity", JInt (CartItem.quantity item));
                       ("price", JStr (str_decimal (Product.price product)));
                       ("total", JStr (str_decimal item_total))]])
            (total + item_total)
      end
  end.

Definition get_cart (current_user_id : Z) : M Response :=
  cart_items <- query (cart_of current_user_id) ;;
  looped <- query (fun d => cart_lines d cart_items [] 0) ;;
  lines <- deref looped ;;
  ret (mkResponse 200
         (JObj [("cart_items", JArr (fst lines));
                ("total", JStr (str_decimal (snd lines)));
                ("items_count", JInt (Z.of_nat (List.length (fst lines))))])).

Definition own_order (order_id user_id : Z) (d : Db) : option Order.t :=
  find (fun o => (Order.id o =? order_id) && (Order.user_id o =? user_id))
       (orders d).

(** One entry of the item list of [get_order_details]; [item.product]
    raises on [None]. *)
Definition order_line (d : Db) (item : OrderItem.t) : option json :=
  match find (fun p => Product.id p =? OrderItem.product_id item)
             (products d) with
  | Some product =>
      Some (JObj [("id", JInt (OrderItem.id item));
                  ("product_id", JInt (Product.id product));
                  ("product_name", JStr (Product.name product));
                  ("quantity", JInt (OrderItem.quantity item));
                  ("price", JStr (str_decimal (OrderItem.price item)));
                  ("total",
                    JStr (str_decimal (OrderItem.price item
                                       * OrderItem.quantity item)))])
  | None => None
  end.

(** [order.shipping_address], [order.billing_address] *)
Definition address_of (address_id : option Z) (d : Db) : option Address.t :=
  match address_id with
  | Some k => find (fun a => Address.id a =? k) (addresses d)
  | None => None
  end.

Definition postal (a : Address.t) : json :=
  JObj [("street", JStr (Address.street a));
        ("city", JStr (Address.city a));
        ("state", JStr (Address.state a));
        ("country", JStr (Address.country a));
        ("zip_code", JStr (Address.zip_code a))].

Definition get_order_details (current_user_id order_id : Z) : M Response :=
  found <- query (own_order order_id current_user_id) ;;
  match found with
  | None => ret (error 404 "Order not found")
  | Some order =>
      looped <- query (fun d =>
                  collect (order_line d)
                          (filter (fun i => OrderItem.order_id i
                                            =? Order.id order)
                                  (order_items d))) ;;
      items <- deref looped ;;
      loaded <- query (address_of (Order.shipping_address_id order)) ;;
      shipping_address <- deref loaded ;;
      loaded <- query (address_of (Order.billing_address_id order)) ;;
      billing_address <- deref loaded ;;
      ret (mkResponse 200
             (JObj [("id", JInt (Order.id order));
                    ("order_number", JStr (Order.order_number order));
                    ("status", JStr (Order.status order));
                    ("total_amount",
                      JStr (str_decimal (Order.total_amount order)));
                    ("items", JArr items);
                    ("shipping_address", postal shipping_address);
                    ("billing_address", postal billing_address)]))
  end.

(* ================================================================= *)
(** ** migration/versions/d7c5cf0640c9_initial_migration.py *)

Module Migration.

(** The part of a database that Alembic's operations act on: the tables
    and, for each, its columns in order and the number of rows it holds.
    A column here has no server default: the revision gives none. *)
Inductive sa_type : Type :=
| Integer
| Boolean
| DateTime
| Text
| Numeric (precision scale : Z)
| String_ (length : Z).

Record Column : Type := mkColumn {
  cname : string;
  ctype : sa_type;
  nullable : bool }.

Record Table : Type := mkTable {
  tname : string;
  columns : list Column;
  rows : N }.

Definition Schema : Type := list Table.

Definition has_table (table_name : string) (s : Schema) : bool :=
  existsb (fun t => String.eqb (tname t) table_name) s.

Definition has_column (column_name : string) (t : Table) : bool :=
  existsb (fun c => String.eqb (cname c) column_name) (columns t).

(** The tables called [table_name] all satisfy [p]. *)
Definition every (table_name : string) (p : Table -> bool) (s : Schema)
  : bool :=
  forallb (fun t => if String.eqb (tname t) table_name then p t else true) s.

Definition alter (table_name : string) (f : Table -> Table) (s : Schema)
  : Schema :=
  map (fun t => if String.eqb (tname t) table_name then f t else t) s.

(** [op.add_column(table_name, column)], that is [ALTER TABLE ... ADD
    COLUMN]: the column goes after the existing ones; the statement fails
    when the table is missing, when it already has a column of that name,
    and when the column is [NOT NULL] and the table holds rows, which
    would have no value for it. *)
Definition add_column (table_name : string) (column : Column) (s : Schema)
  : option Schema :=
  if has_table table_name s
     && every table_name (fun t => negb (has_column (cname column) t)) s
     && every table_name (fun t => nullable column || (rows t =? 0)%N) s
  then Some (alter table_name
               (fun t => mkTable (tname t) (columns t ++ [column]) (rows t))
               s)
  else None.

(** [op.drop_column(table_name, column_name)], that is [ALTER TABLE ...
    DROP COLUMN]; it fails when the table or the column is missing. *)
Definition drop_column (table_name column_name : string) (s : Schema)
  : option Schema :=
  if has_table table_name s
     && every table_name (has_column column_name) s
  then Some (alter table_name
               (fun t =>
                  mkTable (tname t)
                    (filter (fun c => negb (String.eqb (cname c) column_name))
                            (columns t))
                    (rows t)) s)
  else None.

Definition revision : string := "d7c5cf0640c9".
Definition down_revision : option string := Some "2e0c78c0f875".

Definition password_column : Column :=
  mkColumn "password" (String_ 128) false.

Definition upgrade (s : Schema) : option Schema :=
  add_column "users" password_column s.

Definition downgrade (s : Schema) : option Schema :=
  drop_column "users" "password" s.

End Migration.

(* ================================================================= *)
(** ** Vocabulary of the properties *)


(** The number of reviews of a (user, product) pair. *)
Definition review_rows (user_id product_id : Z) (db : Db) : Z :=
  Z.of_nat (List.length
              (filter (fun r => (Review.user_id r =? user_id)
                                && (Review.product_id r =? product_id))
                      (reviews db))).

(** The number of default addresses of a user. *)
Definition default_rows (user_id : Z) (db : Db) : Z :=
  Z.of_nat (List.length
              (filter (fun a => (Address.user_id a =? user_id)
                                && Address.is_default a)
                      (addresses db))).

(** The quantity of product [product_id] in a list of cart rows. *)
Definition ordered (product_id : Z) (cart : list CartItem.t) : Z :=
  fold_right Z.add 0
    (map (fun c => if CartItem.product_id c =? product_id
                   then CartItem.quantity c else 0) cart).

Definition product_by_id (product_id : Z) (db : Db) : option Product.t :=
  find (fun p => Product.id p =? product_id) (products db).

(** The price of the product of a cart row, 0 for a dangling row. *)
Definition price_of (db : Db) (c : CartItem.t) : Z :=
  match product_of c db with
  | Some p => Product.price p
  | None => 0
  end.

(** An id that the 64-bit INTEGER of the database can be compared with: a
    larger one cannot be bound to a query. *)
Definition int64 (k : Z) : Prop := - 2 ^ 63 <= k < 2 ^ 63.

(** The sum over the cart of price times quantity. *)
Definition cart_total (db : Db) (cart : list CartItem.t) : Z :=
  fold_right Z.add 0 (map (fun c => price_of db c * CartItem.quantity c) cart).

(** The first cart row that fails the re-check against the database. *)
Definition first_unavailable (db : Db) (cart : list CartItem.t)
  : option CartItem.t :=
  find (fun c => match product_of c db with
                 | Some p => unavailable p c
                 | None => false
                 end) cart.

(** What [create_order] needs to get as far as its loop: the caller exists,
    both addresses are the caller's, and the order number is not taken. *)
Record order_can_start (db : Db) (current_user_id : Z) (data : OrderBody)
  (uuid4 : N) (shipping billing : Address.t) : Prop := {
  caller_exists :
    find (fun u => User.id u =? current_user_id) (users db) <> None;
  shipping_given :
    exists k, shipping_address_id data = Some k
              /\ own_address k current_user_id db = Some shipping
              /\ own_address (or_else (billing_address_id data) k)
                             current_user_id db = Some billing;
  number_free :
    existsb (String.eqb (Uuid.tagged "ORD-" uuid4))
            (map Order.order_number (orders db)) = false }.

(** The order row as it is flushed before the loop. *)
Definition pending_order (db : Db) (current_user_id : Z) (uuid4 : N)
  (shipping billing : Address.t) : Order.t :=
  Order.mk (next_id (map Order.id (orders db))) (Uuid.tagged "ORD-" uuid4)
           "pending" 0 current_user_id (Some (Address.id shipping))
           (Some (Address.id billing)).

(** An order item is the snapshot of a cart row: same product, same
    quantity, and the price the product has in [db]. *)
Definition snapshot (db : Db) (order_id : Z) (c : CartItem.t)
  (item : OrderItem.t) : Prop :=
  OrderItem.order_id item = order_id
  /\ OrderItem.product_id item = CartItem.product_id c
  /\ OrderItem.quantity item = CartItem.quantity c
  /\ exists p, product_of c db = Some p
               /\ OrderItem.price item = Product.price p.

(** Two databases that differ at most in [products] and [order_items]. *)
Definition same_outside_catalogue (d d' : Db) : Prop :=
  users d' = users d /\ addresses d' = addresses d
  /\ categories d' = categories d /\ orders d' = orders d
  /\ reviews d' = reviews d /\ cart_items d' = cart_items d
  /\ product_images d' = product_images d.

(** Upper-case hexadecimal text of length 8. *)
Definition hex8 (s : list ascii) : Prop :=
  List.length s = 8%nat /\ forallb Uuid.is_upper_hex s = true.

(** The routes that write to [cart_items]. *)
Definition writes_cart (r : Request) : bool :=
  match r with
  | AddToCart _ _ | UpdateCartItem _ _ _ | RemoveFromCart _ _
  | CreateOrder _ _ _ => true
  | _ => false
  end.

(** The user on whose behalf a request runs, when it has one. *)
Definition caller (r : Request) : option Z :=
  match r with
  | UpdateUserProfile u _ | CreateProduct u _ _ | UpdateProduct u _ _
  | DeleteProduct u _ | CreateCategory u _ | AddToCart u _
  | UpdateCartItem u _ _ | RemoveFromCart u _ | CreateOrder u _ _
  | CreateReview u _ _ | CreateAddress u _ => Some u
  | Register _ | Login _ | GetProducts _ _ _ | GetProduct _ => None
  end.

(** The account table has no two rows with the same primary key, the same
    username or the same email. *)
Definition unique_accounts (db : Db) : Prop :=
  NoDup (map User.id (users db))
  /\ NoDup (map User.username (users db))
  /\ NoDup (map User.email (users db)).

(** The primary keys of the administrators. *)
Definition admins (db : Db) : list Z :=
  map User.id (filter User.is_admin (users db)).

(** Reading a JSON response. *)
Definition field (k : string) (j : json) : option json :=
  match j with
  | JObj l => option_map snd (find (fun kv => String.eqb (fst kv) k) l)
  | _ => None
  end.

(** The ids of the products in a [/products] response. *)
Definition listed_ids (r : Response) : list Z :=
  match field "products" (body r) with
  | Some (JArr entries) =>
      flat_map (fun e => match field "id" e with
                         | Some (JInt k) => [k]
                         | _ => []
                         end) entries
  | _ => []
  end.

(* ================================================================= *)
(** ** A small shop, for the examples *)

Module Sample.

Definition alice : User.t :=
  User.mk 1 "alice" "alice@example.org" "hash-a" "Alice" "A" true true.
Definition bob : User.t :=
  User.mk 2 "bob" "bob@example.org" "hash-b" "Bob" "B" true false.

Definition lamp : Product.t :=
  Product.mk 1 "Lamp" "A lamp" 1000 5 "SKU-0000LAMP" true None.
Definition desk : Product.t :=
  Product.mk 2 "Desk" "A desk" 550 1 "SKU-0000DESK" true None.

Definition home : Address.t :=
  Address.mk 1 "1 Main St" "Springfield" "" "US" "12345" true "shipping" 2.

(** Bob's cart: two lamps and one desk. *)
Definition db : Db :=
  mkDb [alice; bob] [lamp; desk] [home] [] [] []
       [Review.mk 1 4 "fine" 2 1]
       [CartItem.mk 1 2 2 1; CartItem.mk 2 1 2 2] [].

(** The same shop after the last desk was sold to somebody else. *)
Definition sold_out : Db :=
  with_products (update_where Product.id 2 (Product.with_stock 0)) db.

Definition order_body : OrderBody :=
  {| shipping_address_id := Some 1; billing_address_id := None |}.

Definition uuid4 : N := 0x1a2b3c4d5e6f40008000000000000000%N.

Definition token (user_id : Z) : string := "token-" +++ str_nat user_id.

Definition schema : Migration.Schema :=
  [Migration.mkTable "users"
     [Migration.mkColumn "id" Migration.Integer false;
      Migration.mkColumn "username" (Migration.String_ 64) false;
      Migration.mkColumn "email" (Migration.String_ 120) false] 0;
   Migration.mkTable "categories"
     [Migration.mkColumn "id" Migration.Integer false;
      Migration.mkColumn "name" (Migration.String_ 64) false] 3].

(** The same schema once two users have registered. *)
Definition populated : Migration.Schema :=
  Migration.alter "users"
    (fun t => Migration.mkTable (Migration.tname t) (Migration.columns t) 2)
    schema.

End Sample.


(* ================================================================= *)
(** * Properties *)

(** Sanity checks of the conversions. *)

Example int_abc : PyInt.int (JStr "abc") = None.
Proof. reflexivity. Qed.

Example int_padded : PyInt.int (JStr " -1_000 ") = Some (-1000).
Proof. reflexivity. Qed.

Example int_double_underscore : PyInt.int (JStr "1__0") = None.
Proof. reflexivity. Qed.

(** The separators 28 to 31 are blanks for [str.isspace], not for
    [int()]. *)
Example int_unit_separator :
  PyInt.int (JStr (String (ascii_of_N 31) "5")) = None.
Proof. reflexivity. Qed.

(** A no-break space (bytes 194, 160) and a full-width five (bytes 239,
    188, 149). *)
Example int_unicode :
  PyInt.int (JStr (string_of_list_ascii
                     (map ascii_of_N [194; 160; 239; 188; 149]%N)))
  = Some 5.
Proof. reflexivity. Qed.

Example int_digit_limit :
  PyInt.int (JStr (string_of_list_ascii (repeat "0"%char 4300))) = Some 0
  /\ PyInt.int (JStr (string_of_list_ascii (repeat "0"%char 4301))) = None.
Proof. split; vm_compute; reflexivity. Qed.

Example int_float : PyInt.int (JFloat (FFinite (-7) (-1))) = Some (-3).
Proof. reflexivity. Qed.

Example str_decimal_2550 : str_decimal 2550 = "25.50".
Proof. reflexivity. Qed.

Example str_decimal_neg : str_decimal (-5) = "-0.05".
Proof. reflexivity. Qed.

Example tagged_ord :
  Uuid.tagged "ORD-" 0x1a2b3c4d000000000000000000000000%N = "ORD-1A2B3C4D".
Proof. reflexivity. Qed.

(** Unfolds the plumbing of the session monad. *)
Ltac run :=
  cbv beta iota zeta
      delta [serve bind ret query write commit rollback raise get_or_404
             deref int_ check_unique admin_only check_password set_password
             Decimal_of committed working orb andb negb].

(* ================================================================= *)
(** ** Login *)

(** C7. The two login requests of the claim are not answered alike.  Both
    carry a username and a password.  The one whose username resolves to no
    user gets 401 with [{"error": "Invalid username or password"}].  The
    one whose username exists reaches [user.check_password], a method that
    class [User] does not have: whatever the password, the answer is the
    generic 500, so the status tells an existing username from an unknown
    one.  Neither request changes the database. *)
Theorem login_reveals_existing_username
  (create_access_token : Z -> string)
  (db : Db) (unknown wrong : LoginBody) (u : User.t) :
  falsy (login_username unknown) = false ->
  falsy (login_password unknown) = false ->
  by_username (get_text (login_username unknown)) db = None ->
  falsy (login_username wrong) = false ->
  falsy (login_password wrong) = false ->
  by_username (get_text (login_username wrong)) db = Some u ->
  serve (login create_access_token unknown) db
  = (mkResponse 401 (JObj [("error", JStr "Invalid username or password")]),
     db)
  /\ serve (login create_access_token wrong) db
     = (mkResponse 500 (JObj [("error", JStr "Internal server error")]), db)
  /\ serve (login create_access_token unknown) db
     <> serve (login create_access_token wrong) db.
Proof.
  intros Hu1 Hp1 Hnone Hu2 Hp2 Hsome.
  assert (H401 : serve (login create_access_token unknown) db
                 = (error 401 "Invalid username or password", db)).
  { unfold login. rewrite Hu1, Hp1. run. rewrite Hnone. reflexivity. }
  assert (H500 : serve (login create_access_token wrong) db
                 = (server_error, db)).
  { unfold login. rewrite Hu2, Hp2. run. rewrite Hsome. reflexivity. }
  split; [exact H401|]. split; [exact H500|].
  rewrite H401, H500. discriminate.
Qed.

(* ================================================================= *)
(** ** The schema-evolution step *)

Module MigrationFacts.
Import Migration.

Lemma has_table_alter (n : string) (f : Table -> Table) (s : Schema) :
  (forall t, tname (f t) = tname t) ->
  has_table n (alter n f s) = has_table n s.
Proof.
  intros Hf. unfold has_table, alter.
  induction s as [|t s IH]; simpl; [reflexivity|].
  rewrite IH. destruct (String.eqb (tname t) n) eqn:E.
  - rewrite Hf, E. reflexivity.
  - rewrite E. reflexivity.
Qed.

Lemma has_column_app (n : string) (t : Table) (c : Column) :
  has_column n (mkTable (tname t) (columns t ++ [c]) (rows t))
  = has_column n t || String.eqb (cname c) n.
Proof.
  unfold has_column. simpl. rewrite existsb_app. simpl.
  rewrite orb_false_r. reflexivity.
Qed.

(** Removing the columns called [n] from [cols ++ [c]], where [c] is
    called [n] and no column of [cols] is, gives [cols] back. *)
Lemma filter_appended (n : string) (cols : list Column) (c : Column) :
  cname c = n ->
  existsb (fun c' => String.eqb (cname c') n) cols = false ->
  filter (fun c' => negb (String.eqb (cname c') n)) (cols ++ [c]) = cols.
Proof.
  intros Hc. induction cols as [|c' cols IH]; simpl; intros Hno.
  - rewrite Hc, String.eqb_refl. reflexivity.
  - apply orb_false_iff in Hno. destruct Hno as [Hc' Hno].
    rewrite Hc'. simpl. rewrite IH by assumption. reflexivity.
Qed.

Lemma drop_after_add (n : string) (c : Column) (s : Schema) :
  every n (fun t => negb (has_column (cname c) t)) s = true ->
  alter n
    (fun t =>
       mkTable (tname t)
         (filter (fun c' => negb (String.eqb (cname c') (cname c)))
                 (columns t))
         (rows t))
    (alter n (fun t => mkTable (tname t) (columns t ++ [c]) (rows t)) s)
  = s.
Proof.
  unfold every, alter. induction s as [|t s IH]; simpl; intros H.
  - reflexivity.
  - apply andb_true_iff in H. destruct H as [Ht Hs].
    rewrite IH by assumption.
    destruct (String.eqb (tname t) n) eqn:E.
    + simpl. rewrite E. simpl.
      rewrite filter_appended; [destruct t; reflexivity|reflexivity|].
      apply negb_true_iff in Ht. exact Ht.
    + rewrite E. reflexivity.
Qed.

Lemma every_added (n : string) (c : Column) (s : Schema) :
  every n (has_column (cname c))
        (alter n (fun t => mkTable (tname t) (columns t ++ [c]) (rows t)) s)
  = true.
Proof.
  unfold every, alter. induction s as [|t s IH]; simpl; [reflexivity|].
  rewrite IH, andb_true_r.
  destruct (String.eqb (tname t) n) eqn:E; simpl; rewrite E.
  - rewrite has_column_app, String.eqb_refl. apply orb_true_r.
  - reflexivity.
Qed.

End MigrationFacts.

(** C10. On a schema that has a [users] table without a [password] column
    and without rows, the forward operation succeeds and its result is the
    same schema with exactly one column appended to [users]: [password],
    [String(128)], not nullable; every other table, every other column and
    every row count is as before.  The backward operation on that result
    succeeds, drops exactly that column and gives the original schema back.
    When the [users] table holds rows, the forward operation fails: the
    rows would have no value for the required column. *)
Theorem migration_round_trip (s : Migration.Schema) :
  Migration.has_table "users" s = true ->
  Migration.every "users"
    (fun t => negb (Migration.has_column "password" t)) s = true ->
  if Migration.every "users" (fun t => (Migration.rows t =? 0)%N) s
  then exists s' : Migration.Schema,
         Migration.upgrade s = Some s'
         /\ s' = Migration.alter "users"
                   (fun t =>
                      Migration.mkTable (Migration.tname t)
                        (Migration.columns t
                         ++ [Migration.mkColumn "password"
                               (Migration.String_ 128) false])
                        (Migration.rows t))
                   s
         /\ Migration.downgrade s' = Some s
  else Migration.upgrade s = None.
Proof.
  intros Ht Hc.
  unfold Migration.upgrade, Migration.add_column.
  change (Migration.cname Migration.password_column) with "password".
  change (Migration.nullable Migration.password_column) with false.
  rewrite Ht, Hc. cbn [orb andb].
  destruct (Migration.every "users"
              (fun t => (Migration.rows t =? 0)%N) s); [|reflexivity].
  eexists. split; [reflexivity|]. split; [reflexivity|].
  unfold Migration.downgrade, Migration.drop_column.
  rewrite MigrationFacts.has_table_alter by reflexivity. rewrite Ht.
  change "password" with (Migration.cname Migration.password_column) at 1.
  change (Migration.mkColumn "password" (Migration.String_ 128) false)
    with Migration.password_column.
  rewrite MigrationFacts.every_added. simpl andb. cbv iota.
  f_equal.
  exact (MigrationFacts.drop_after_add "users" Migration.password_column
           s Hc).
Qed.

(** The claim as the specification words it promises the round trip for
    every schema whose [users] table has no [password] column.  On such a
    schema with two rows in [users] the forward operation fails. *)
Lemma migration_fails_on_populated_table :
  Migration.has_table "users" Sample.populated = true
  /\ Migration.every "users"
       (fun t => negb (Migration.has_column "password" t)) Sample.populated
     = true
  /\ Migration.upgrade Sample.populated = None.
Proof. repeat split. Qed.

(* ================================================================= *)
(** ** Add to cart: validation *)



Lemma login_reveals_existing_username_witness :
  serve (login Sample.token
           {| login_username := Some "nobody"; login_password := Some "x" |})
        Sample.db
  = (mkResponse 401 (JObj [("error", JStr "Invalid username or password")]),
     Sample.db)
  /\ serve (login Sample.token
              {| login_username := Some "bob";
                 login_password := Some "guess" |})
           Sample.db
     = (mkResponse 500 (JObj [("error", JStr "Internal server error")]),
        Sample.db)
  /\ serve (login Sample.token
              {| login_username := Some "nobody"; login_password := Some "x" |})
           Sample.db
     <> serve (login Sample.token
                 {| login_username := Some "bob";
                    login_password := Some "guess" |})
              Sample.db.
Proof.
  apply (login_reveals_existing_username Sample.token Sample.db
           {| login_username := Some "nobody"; login_password := Some "x" |}
           {| login_username := Some "bob"; login_password := Some "guess" |}
           Sample.bob);
    reflexivity.
Defined.

Lemma migration_round_trip_witness :
  exists s' : Migration.Schema,
    Migration.upgrade Sample.schema = Some s'
    /\ s' = Migration.alter "users"
              (fun t =>
                 Migration.mkTable (Migration.tname t)
                   (Migration.columns t
                    ++ [Migration.mkColumn "password" (Migration.String_ 128)
                                           false])
                   (Migration.rows t))
              Sample.schema
    /\ Migration.downgrade s' = Some Sample.schema.
Proof.
  apply (migration_round_trip Sample.schema); reflexivity.
Defined.

(* ================================================================= *)
(** ** Lists of rows *)

Lemma filter_length_app {A : Type} (f : A -> bool) (l : list A) (a : A) :
  Z.of_nat (List.length (filter f (l ++ [a])))
  = Z.of_nat (List.length (filter f l)) + (if f a then 1 else 0).
Proof.
  rewrite filter_app, length_app. simpl. destruct (f a); simpl; lia.
Qed.

Lemma find_none_filter {A : Type} (f : A -> bool) (l : list A) :
  find f l = None -> filter f l = [].
Proof.
  induction l as [|a l IH]; simpl; [reflexivity|].
  destruct (f a); [discriminate|exact IH].
Qed.

Lemma filter_map_same {A : Type} (f : A -> bool) (g : A -> A) (l : list A) :
  (forall a, f (g a) = f a) ->
  List.length (filter f (map g l)) = List.length (filter f l).
Proof.
  intros H. induction l as [|a l IH]; simpl; [reflexivity|].
  rewrite H. destruct (f a); simpl; rewrite IH; reflexivity.
Qed.


(* ================================================================= *)
(** ** Values that [int()] rejects *)

(** A rating that [int()] rejects does not always give a 500: the lookup of
    the product comes first, and for an unknown product the answer is 404. *)
Lemma unconvertible_rating_not_always_500 :
  ~ (forall (db : Db) (current_user_id product_id : Z) (raw : json)
            (comment : option string),
        PyInt.int raw = None ->
        fst (serve (create_review current_user_id product_id
                      {| rev_rating := Some raw; rev_comment := comment |}) db)
        = server_error).
Proof.
  intros H.
  specialize (H Sample.db 2 99 (JStr "abc") None eq_refl).
  discriminate H.
Qed.

(** C9, amended.  When the value given for the rating of create-review, or
    for the quantity of add-to-cart or update-cart-item, is one that [int()]
    rejects, the database is unchanged, and the answer is the generic 500
    once the checks placed before the conversion have passed (the ids in
    the URL being ones that the database can be asked for): the product
    exists (create-review; else 404), the request carries a product id
    (add-to-cart; else 400), the cart item exists and belongs to the caller
    (update-cart-item; else 404). *)
Theorem unconvertible_number_is_500
  (db : Db) (current_user_id product_id item_id : Z) (raw : json)
  (comment : option string) (cart_product : option Z) :
  int64 product_id ->
  int64 item_id ->
  PyInt.int raw = None ->
  serve (create_review current_user_id product_id
           {| rev_rating := Some raw; rev_comment := comment |}) db
  = (match product_by_id product_id db with
     | Some _ => server_error
     | None => error 404 "Not found"
     end, db)
  /\ serve (add_to_cart current_user_id
              {| cart_product_id := cart_product;
                 cart_quantity := Some raw |}) db
     = (match cart_product with
        | Some _ => server_error
        | None => error 400 "Product ID and quantity are required"
        end, db)
  /\ serve (update_cart_item current_user_id item_id
              {| cart_product_id := cart_product;
                 cart_quantity := Some raw |}) db
     = (match own_cart_item item_id current_user_id db with
        | Some _ => server_error
        | None => error 404 "Cart item not found"
        end, db).
Proof.
  intros _ _ Hint. repeat split.
  - unfold create_review, product_by_id. cbn [rev_rating]. run.
    rewrite Hint. destruct (find _ (products db)); reflexivity.
  - unfold add_to_cart. cbn [cart_product_id cart_quantity].
    destruct cart_product; [|reflexivity]. run. rewrite Hint. reflexivity.
  - unfold update_cart_item. cbn [cart_quantity]. run.
    destruct (own_cart_item item_id current_user_id db); [|reflexivity].
    rewrite Hint. reflexivity.
Qed.

Lemma unconvertible_number_is_500_witness :
  serve (create_review 2 1 {| rev_rating := Some (JStr "abc");
                              rev_comment := None |}) Sample.db
  = (server_error, Sample.db)
  /\ serve (add_to_cart 2 {| cart_product_id := Some 1;
                             cart_quantity := Some JNull |}) Sample.db
     = (server_error, Sample.db).
Proof.
  split.
  - apply (unconvertible_number_is_500 Sample.db 2 1 1 (JStr "abc")
             None (Some 1)); [unfold int64; lia | unfold int64; lia |].
    reflexivity.
  - apply (unconvertible_number_is_500 Sample.db 2 1 1 JNull
             None (Some 1)); [unfold int64; lia | unfold int64; lia |].
    reflexivity.
Defined.

(* ================================================================= *)
(** ** Addresses *)

Lemma default_rows_cleared (user_id u : Z) (rows : list Address.t) :
  List.length
    (filter (fun a => (Address.user_id a =? u) && Address.is_default a)
            (clear_default user_id rows))
  = if user_id =? u then 0%nat
    else List.length
           (filter (fun a => (Address.user_id a =? u) && Address.is_default a)
                   rows).
Proof.
  unfold clear_default. induction rows as [|a rows IH]; simpl.
  - destruct (user_id =? u); reflexivity.
  - destruct (Address.user_id a =? user_id) eqn:Ea.
    + apply Z.eqb_eq in Ea. cbn [Address.with_is_default Address.user_id
                                   Address.is_default].
      rewrite Ea. destruct (user_id =? u) eqn:Eu.
      * simpl. exact IH.
      * simpl. exact IH.
    + destruct (user_id =? u) eqn:Eu.
      * apply Z.eqb_eq in Eu. subst u. rewrite Ea. simpl. exact IH.
      * destruct ((Address.user_id a =? u) && Address.is_default a);
          simpl; rewrite IH; reflexivity.
Qed.

(* ================================================================= *)
(** ** Lookups after an update *)

Section UpdateWhere.

Variable A : Type.
Variable key : A -> Z.
Variable f : A -> A.
Hypothesis key_f : forall r, key (f r) = key r.

Lemma find_update_where (k k' : Z) (rows : list A) :
  find (fun r => key r =? k') (update_where key k f rows)
  = option_map (fun r => if key r =? k then f r else r)
               (find (fun r => key r =? k') rows).
Proof.
  unfold update_where. induction rows as [|r rows IH]; simpl; [reflexivity|].
  destruct (key r =? k) eqn:E.
  - rewrite key_f. destruct (key r =? k'); simpl; [rewrite E; reflexivity|].
    exact IH.
  - destruct (key r =? k'); simpl; [rewrite E; reflexivity|exact IH].
Qed.

Lemma find_update_where_other (k k' : Z) (rows : list A) :
  k <> k' ->
  find (fun r => key r =? k') (update_where key k f rows)
  = find (fun r => key r =? k') rows.
Proof.
  intros Hk. rewrite find_update_where.
  destruct (find (fun r => key r =? k') rows) as [r|] eqn:E; [|reflexivity].
  apply find_some in E. destruct E as [_ E]. apply Z.eqb_eq in E. simpl.
  destruct (key r =? k) eqn:E'; [|reflexivity].
  apply Z.eqb_eq in E'. congruence.
Qed.

Lemma map_key_update_where (k : Z) (rows : list A) :
  map key (update_where key k f rows) = map key rows.
Proof.
  unfold update_where. rewrite map_map. apply map_ext. intros r.
  destruct (key r =? k); [apply key_f|reflexivity].
Qed.

End UpdateWhere.

Lemma next_id_above (ids : list Z) (k : Z) : In k ids -> k < next_id ids.
Proof.
  unfold next_id. induction ids as [|i ids IH]; cbn [fold_right In];
    [contradiction|].
  intros [->|H]; [lia|]. specialize (IH H). lia.
Qed.



(* ================================================================= *)
(** ** The order loop *)

(** One turn of the loop. *)
Lemma place_items_cons (order_id : Z) (c : CartItem.t)
  (rest : list CartItem.t) (total : Z) (s : Session) :
  place_items order_id (c :: rest) total s
  = match product_of c (working s) with
    | None => (Exc Uncaught, s)
    | Some p =>
        if unavailable p c
        then
          match product_of c (committed s) with
          | Some p' =>
              (Val (inl (error 400 (unavailable_message p'))),
               mkSession (committed s) (committed s))
          | None => (Exc Uncaught, mkSession (committed s) (committed s))
          end
        else
          place_items order_id rest
            (total + Product.price p * CartItem.quantity c)
            (mkSession (committed s)
               (with_order_items
                  (fun l =>
                     l ++ [OrderItem.mk
                             (next_id (map OrderItem.id
                                           (order_items (working s))))
                             (CartItem.quantity c) (Product.price p)
                             order_id (Product.id p)])
                  (with_products
                     (update_where Product.id (Product.id p)
                        (Product.with_stock
                           (Product.stock p - CartItem.quantity c)))
                     (working s))))
    end.
Proof.
  destruct s as [db0 w]. cbn [place_items]. run.
  destruct (product_of c w) as [p|]; [|reflexivity].
  destruct (unavailable p c); [|reflexivity].
  destruct (product_of c db0); reflexivity.
Qed.

Lemma place_items_nil (order_id total : Z) (s : Session) :
  place_items order_id [] total s = (Val (inr total), s).
Proof. reflexivity. Qed.

Lemma product_of_id (c : CartItem.t) (d : Db) (p : Product.t) :
  product_of c d = Some p -> Product.id p = CartItem.product_id c.
Proof.
  unfold product_of. intros H. apply find_some in H. destruct H as [_ H].
  apply Z.eqb_eq in H. exact H.
Qed.

(** The loop never commits. *)
Lemma place_items_committed (order_id : Z) (items : list CartItem.t) :
  forall (total : Z) (s : Session) r s',
    place_items order_id items total s = (r, s') ->
    committed s' = committed s.
Proof.
  induction items as [|c rest IH]; intros total s r s' H.
  - rewrite place_items_nil in H. inversion H. reflexivity.
  - rewrite place_items_cons in H.
    destruct (product_of c (working s)) as [p|].
    + destruct (unavailable p c).
      * destruct (product_of c (committed s)); inversion H; reflexivity.
      * apply IH in H. exact H.
    + inversion H. reflexivity.
Qed.

Lemma create_order_runs (db : Db) (current_user_id : Z) (data : OrderBody)
  (uuid4 : N) (shipping billing : Address.t) :
  order_can_start db current_user_id data uuid4 shipping billing ->
  cart_of current_user_id db <> [] ->
  let new_order := pending_order db current_user_id uuid4 shipping billing in
  serve (create_order current_user_id data uuid4) db
  = match place_items (Order.id new_order) (cart_of current_user_id db) 0
            (mkSession db (with_orders (fun l => l ++ [new_order]) db)) with
    | (Val (inl response), s) => (response, committed s)
    | (Val (inr total_amount), s) =>
        (mkResponse 201
           (JObj [("message", JStr "Order created successfully");
                  ("order",
                    JObj [("id", JInt (Order.id new_order));
                          ("order_number", JStr (Order.order_number new_order));
                          ("status", JStr "pending");
                          ("total_amount",
                            JStr (str_decimal total_amount))])]),
         with_cart_items (clear_cart (cart_of current_user_id db))
           (with_orders
              (update_where Order.id (Order.id new_order)
                 (Order.with_total_amount total_amount))
              (working s)))
    | (Exc NotFound, s) => (not_found, committed s)
    | (Exc Uncaught, s) => (server_error, committed s)
    end.
Proof.
  intros [Huser [k [Hk [Hship Hbill]]] Hfree] Hcart.
  unfold create_order, pending_order. run.
  destruct (find _ (users db)) as [user|]; [|congruence].
  rewrite Hk, Hship, Hbill.
  destruct (cart_of current_user_id db) as [|c cs] eqn:Hc; [congruence|].
  rewrite Hfree. cbn [Order.id Order.order_number].
  destruct (place_items _ (c :: cs) 0 _) as [[[response|total]|[|]] [db0 w]];
    reflexivity.
Qed.

(** The loop stops at the first cart row that fails the re-check, rolls
    back, and names that row's product.  [db0] is the committed database;
    the rows still to visit have their products untouched in [w]. *)
Lemma place_items_fails (db0 : Db) (order_id : Z) (items : list CartItem.t) :
  forall (total : Z) (w : Db) (c : CartItem.t) (p : Product.t),
    (forall c', In c' items -> product_of c' w = product_of c' db0) ->
    NoDup (map CartItem.product_id items) ->
    (forall c', In c' items -> product_of c' db0 <> None) ->
    first_unavailable db0 items = Some c ->
    product_of c db0 = Some p ->
    place_items order_id items total (mkSession db0 w)
    = (Val (inl (error 400 (unavailable_message p))), mkSession db0 db0).
Proof.
  induction items as [|c0 rest IH];
    intros total w c p Hsame Hnodup Hfk Hfirst Hp.
  - discriminate Hfirst.
  - rewrite place_items_cons. cbn [working committed].
    rewrite (Hsame c0 (or_introl eq_refl)).
    unfold first_unavailable in Hfirst. cbn [find] in Hfirst.
    destruct (product_of c0 db0) as [p0|] eqn:Hp0.
    2:{ exfalso. apply (Hfk c0 (or_introl eq_refl)). exact Hp0. }
    destruct (unavailable p0 c0) eqn:Hbad.
    + inversion Hfirst. subst c0. rewrite Hp in Hp0. inversion Hp0.
      reflexivity.
    + inversion Hnodup as [|k ks Hnotin Hrest]. subst k ks.
      apply (IH _ _ c p); try assumption.
      * intros c' Hc'. rewrite <- (Hsame c' (or_intror Hc')).
        unfold product_of, with_order_items, with_products. cbn [products].
        apply find_update_where_other; [reflexivity|].
        rewrite (product_of_id c0 db0 p0 Hp0). intros Heq. apply Hnotin.
        rewrite Heq. apply in_map. exact Hc'.
      * intros c' Hc'. apply Hfk. right. exact Hc'.
Qed.

(** C1. Order placement is all-or-nothing.  Take a request that reaches the
    order loop (the caller exists, both addresses are the caller's, the
    order number is not taken) and a cart with at most one row per product
    whose rows all reference existing products.  If some row's product is
    inactive or has less stock than the row's quantity, then, [c] being the
    first such row and [p] its product, the answer is 400 "Product {p.name}
    is not available or not enough in stock" and the database after the
    request is the database before it: no order, no order item, no stock
    decrement of the rows before [c], the cart as it was. *)
Theorem create_order_all_or_nothing
  (db : Db) (current_user_id : Z) (data : OrderBody) (uuid4 : N)
  (shipping billing : Address.t) (c : CartItem.t) (p : Product.t) :
  order_can_start db current_user_id data uuid4 shipping billing ->
  NoDup (map CartItem.product_id (cart_of current_user_id db)) ->
  (forall c', In c' (cart_of current_user_id db) -> product_of c' db <> None) ->
  first_unavailable db (cart_of current_user_id db) = Some c ->
  product_of c db = Some p ->
  In c (cart_of current_user_id db)
  /\ (Product.is_active p = false
      \/ Product.stock p < CartItem.quantity c)
  /\ serve (create_order current_user_id data uuid4) db
     = (error 400 ("Product " +++ Product.name p
                   +++ " is not available or not enough in stock"), db).
Proof.
  intros Hstart Hnodup Hfk Hfirst Hp.
  pose proof (find_some _ _ Hfirst) as [Hin Hbad].
  split; [exact Hin|]. split.
  - rewrite Hp in Hbad. unfold unavailable in Hbad.
    apply orb_true_iff in Hbad. destruct Hbad as [Hbad|Hbad].
    + left. apply negb_true_iff. exact Hbad.
    + right. apply Z.ltb_lt. exact Hbad.
  - rewrite (create_order_runs db current_user_id data uuid4 shipping billing
               Hstart).
    2:{ intros Hnil. rewrite Hnil in Hin. contradiction. }
    cbv zeta.
    rewrite (place_items_fails db _ (cart_of current_user_id db) 0 _ c p);
      try assumption; reflexivity.
Qed.

Lemma ordered_cons (k : Z) (c : CartItem.t) (rest : list CartItem.t) :
  ordered k (c :: rest)
  = (if CartItem.product_id c =? k then CartItem.quantity c else 0)
    + ordered k rest.
Proof. reflexivity. Qed.

Lemma with_stock_same (p : Product.t) (n : Z) :
  n = Product.stock p -> Product.with_stock n p = p.
Proof. intros ->. destruct p. reflexivity. Qed.

(** What a completed loop has done: the total is the sum of price times
    quantity, each product has lost what was ordered of it, the order items
    are the snapshots of the cart rows, and nothing is committed. *)
Lemma place_items_done (order_id : Z) (items : list CartItem.t) :
  forall (total : Z) (s : Session) (t : Z) (s' : Session),
    place_items order_id items total s = (Val (inr t), s') ->
    committed s' = committed s
    /\ t = total + cart_total (working s) items
    /\ (forall k,
          product_by_id k (working s')
          = option_map
              (fun p =>
                 Product.with_stock (Product.stock p - ordered k items) p)
              (product_by_id k (working s)))
    /\ (exists new_items,
          order_items (working s') = order_items (working s) ++ new_items
          /\ Forall2 (snapshot (working s) order_id) items new_items)
    /\ same_outside_catalogue (working s) (working s').
Proof.
  induction items as [|c rest IH]; intros total s t s' H.
  - rewrite place_items_nil in H. inversion H. subst t s'.
    split; [reflexivity|]. split; [cbn; lia|]. split.
    + intros k. destruct (product_by_id k (working s)) as [p|]; [|reflexivity].
      cbn. f_equal. symmetry. apply with_stock_same. lia.
    + split; [exists []; split; [symmetry; apply app_nil_r|constructor]|].
      repeat split; reflexivity.
  - rewrite place_items_cons in H.
    destruct (product_of c (working s)) as [p|] eqn:Hp; [|discriminate].
    destruct (unavailable p c).
    { destruct (product_of c (committed s)); discriminate. }
    apply IH in H. cbn [committed working] in H.
    destruct H as (Hcom & Ht & Hstock & (new_items & Hitems & Hsnap) & Hsame).
    pose proof (product_of_id c (working s) p Hp) as Hid.
    assert (Hlook : forall k,
               product_by_id k
                 (with_order_items
                    (fun l =>
                       l ++ [OrderItem.mk
                               (next_id (map OrderItem.id
                                             (order_items (working s))))
                               (CartItem.quantity c) (Product.price p)
                               order_id (Product.id p)])
                    (with_products
                       (update_where Product.id (Product.id p)
                          (Product.with_stock
                             (Product.stock p - CartItem.quantity c)))
                       (working s)))
               = option_map
                   (fun r => if Product.id r =? Product.id p
                             then Product.with_stock
                                    (Product.stock p - CartItem.quantity c) r
                             else r)
                   (product_by_id k (working s))).
    { intros k. unfold product_by_id, with_order_items, with_products.
      cbn [products]. apply find_update_where. reflexivity. }
    assert (Hprice : forall c',
               price_of
                 (with_order_items
                    (fun l =>
                       l ++ [OrderItem.mk
                               (next_id (map OrderItem.id
                                             (order_items (working s))))
                               (CartItem.quantity c) (Product.price p)
                               order_id (Product.id p)])
                    (with_products
                       (update_where Product.id (Product.id p)
                          (Product.with_stock
                             (Product.stock p - CartItem.quantity c)))
                       (working s))) c'
               = price_of (working s) c').
    { intros c'. unfold price_of.
      change (product_of c' ?d) with (product_by_id (CartItem.product_id c') d).
      rewrite Hlook.
      destruct (product_by_id (CartItem.product_id c') (working s)) as [r|];
        [|reflexivity].
      cbn [option_map]. destruct (Product.id r =? Product.id p); reflexivity. }
    split; [exact Hcom|]. split; [|split; [|split]].
    + rewrite Ht. unfold cart_total. cbn [map fold_right].
      unfold price_of at 2. rewrite Hp.
      rewrite (map_ext _ _ (fun c' => f_equal (fun x => x * _) (Hprice c'))).
      lia.
    + intros k. rewrite Hstock, Hlook, ordered_cons.
      destruct (product_by_id k (working s)) as [r|] eqn:Hr; [|reflexivity].
      cbn [option_map]. f_equal.
      destruct (Product.id r =? Product.id p) eqn:E.
      * apply Z.eqb_eq in E.
        assert (Hk : Product.id r = k).
        { unfold product_by_id in Hr. apply find_some in Hr.
          destruct Hr as [_ Hr]. apply Z.eqb_eq in Hr. exact Hr. }
        assert (r = p).
        { unfold product_of in Hp. unfold product_by_id in Hr.
          rewrite <- Hid, <- E, Hk in Hp. congruence. }
        subst r. rewrite <- Hid, <- Hk, Z.eqb_refl.
        unfold Product.with_stock.
        cbn [Product.stock Product.id Product.name Product.description
             Product.price Product.sku Product.is_active Product.category_id].
        f_equal. lia.
      * assert (Hk : Product.id r = k).
        { unfold product_by_id in Hr. apply find_some in Hr.
          destruct Hr as [_ Hr]. apply Z.eqb_eq in Hr. exact Hr. }
        rewrite <- Hid, <- Hk, Z.eqb_sym, E. f_equal; lia.
    + exists (OrderItem.mk
                (next_id (map OrderItem.id (order_items (working s))))
                (CartItem.quantity c) (Product.price p) order_id
                (Product.id p) :: new_items).
      split.
      * rewrite Hitems. cbn [with_order_items order_items].
        rewrite <- app_assoc. reflexivity.
      * constructor.
        -- repeat split; try reflexivity; [exact Hid|].
           exists p. split; [exact Hp|reflexivity].
        -- eapply Forall2_impl; [|exact Hsnap].
           intros c' item (H1 & H2 & H3 & (r & Hr & H4)).
           repeat split; try assumption.
           change (product_of c' ?d)
             with (product_by_id (CartItem.product_id c') d) in Hr |- *.
           rewrite Hlook in Hr.
           destruct (product_by_id (CartItem.product_id c') (working s))
             as [r0|]; [|discriminate].
           exists r0. split; [reflexivity|]. rewrite H4.
           cbn [option_map] in Hr. inversion Hr.
           destruct (Product.id r0 =? Product.id p); reflexivity.
    + destruct Hsame as (H1 & H2 & H3 & H4 & H5 & H6 & H7).
      repeat split; assumption.
Qed.

(** An early [return] of the loop is a 400. *)
Lemma place_items_early (order_id : Z) (items : list CartItem.t) :
  forall (total : Z) (s : Session) (response : Response) (s' : Session),
    place_items order_id items total s = (Val (inl response), s') ->
    status response = 400.
Proof.
  induction items as [|c rest IH]; intros total s response s' H.
  - rewrite place_items_nil in H. discriminate.
  - rewrite place_items_cons in H.
    destruct (product_of c (working s)) as [p|]; [|discriminate].
    destruct (unavailable p c).
    + destruct (product_of c (committed s)); inversion H. reflexivity.
    + apply IH in H. exact H.
Qed.

(** A 201 from [create_order] tells that the request reached the loop with
    a cart that is not empty. *)
Lemma create_order_201_started (db : Db) (current_user_id : Z)
  (data : OrderBody) (uuid4 : N) :
  status (fst (serve (create_order current_user_id data uuid4) db)) = 201 ->
  cart_of current_user_id db <> []
  /\ exists shipping billing,
       order_can_start db current_user_id data uuid4 shipping billing.
Proof.
  unfold create_order. run.
  destruct (find _ (users db)) as [user|] eqn:Huser; [|discriminate].
  destruct (shipping_address_id data) as [k|] eqn:Hk; [|discriminate].
  destruct (own_address k current_user_id db) as [shipping|] eqn:Hship;
    [|discriminate].
  destruct (own_address (or_else (billing_address_id data) k)
                        current_user_id db) as [billing|] eqn:Hbill;
    [|discriminate].
  destruct (cart_of current_user_id db) as [|c cs] eqn:Hcart; [discriminate|].
  destruct (existsb _ (map Order.order_number (orders db))) eqn:Hfree;
    [discriminate|].
  intros _. split; [discriminate|].
  exists shipping, billing. constructor.
  - rewrite Huser. discriminate.
  - exists k. repeat split; assumption.
  - exact Hfree.
Qed.

(* ------------------------------------------------------------- *)
(** *** The order number *)

Lemma hex_digit_upper (n : N) :
  (n < 16)%N -> Uuid.is_upper_hex (Uuid.upper_char (Uuid.hex_digit n)) = true.
Proof.
  intros H. rewrite <- (N2Nat.id n).
  assert (Hm : (N.to_nat n < 16)%nat) by lia.
  revert Hm. generalize (N.to_nat n). intros m Hm.
  do 16 (destruct m as [|m]; [reflexivity|]). lia.
Qed.

Lemma upper_hex_from (k : nat) (u : N) :
  forallb Uuid.is_upper_hex (Uuid.upper (Uuid.hex_from k u)) = true.
Proof.
  induction k as [|k IH]; [reflexivity|].
  cbn [Uuid.hex_from Uuid.upper map forallb].
  rewrite hex_digit_upper by (apply N.mod_lt; discriminate).
  exact IH.
Qed.

Lemma hex_from_length (k : nat) (u : N) : List.length (Uuid.hex_from k u) = k.
Proof.
  induction k as [|k IH]; [reflexivity|]. cbn. rewrite IH. reflexivity.
Qed.

Lemma forallb_firstn {A : Type} (f : A -> bool) (n : nat) (l : list A) :
  forallb f l = true -> forallb f (firstn n l) = true.
Proof.
  revert l. induction n as [|n IH]; intros [|a l]; try reflexivity.
  cbn [firstn forallb]. intros H. apply andb_true_iff in H.
  destruct H as [Ha Hl]. rewrite Ha, (IH l Hl). reflexivity.
Qed.

(** ["ORD-"] followed by eight upper-case hexadecimal characters. *)
Lemma tagged_format (prefix : string) (u : N) :
  exists digits,
    Uuid.tagged prefix u = prefix +++ string_of_list_ascii digits
    /\ hex8 digits.
Proof.
  exists (Uuid.upper (firstn 8 (Uuid.hex u))). split; [reflexivity|]. split.
  - unfold Uuid.upper, Uuid.hex.
    rewrite length_map, length_firstn, hex_from_length.
    reflexivity.
  - unfold Uuid.upper, Uuid.hex. rewrite <- firstn_map.
    apply forallb_firstn. apply upper_hex_from.
Qed.

(* ------------------------------------------------------------- *)
(** *** Clearing the cart *)

Lemma in_clear_cart (cs rows : list CartItem.t) (x : CartItem.t) :
  In x (clear_cart cs rows) ->
  In x rows /\ forall c, In c cs -> CartItem.id x <> CartItem.id c.
Proof.
  unfold clear_cart. revert rows. induction cs as [|c cs IH]; intros rows H.
  - split; [exact H|]. intros c [].
  - cbn [fold_left] in H. apply IH in H. destruct H as [Hin Hcs].
    unfold delete_where in Hin. apply filter_In in Hin.
    destruct Hin as [Hin Hne]. split; [exact Hin|].
    intros c' [<-|Hc']; [|apply Hcs; exact Hc'].
    apply negb_true_iff, Z.eqb_neq in Hne. exact Hne.
Qed.



(** [plain x]: no case analysis hides inside [x]. *)
Ltac plain x :=
  lazymatch x with
  | context [match _ with _ => _ end] => fail
  | _ => idtac
  end.

(** Destructs the values that the goal branches on, innermost first. *)
Ltac branches :=
  repeat match goal with
         | |- context [match ?x with _ => _ end] => plain x; destruct x
         end.



(* ================================================================= *)
(** ** Soft delete *)

Lemma listed_ids_entries (d : Db) (items : list Product.t)
  (rest : list (string * json)) :
  listed_ids
    (mkResponse 200
       (JObj (("products", JArr (map (product_entry d) items)) :: rest)))
  = map Product.id items.
Proof.
  unfold listed_ids. cbn [body field find fst snd option_map String.eqb
                          Ascii.eqb Bool.eqb].
  induction items as [|p items IH]; [reflexivity|].
  cbn [map flat_map]. rewrite IH. reflexivity.
Qed.

Lemma in_page {A : Type} (rows : list A) (n m : nat) (x : A) :
  In x (firstn n (skipn m rows)) -> In x rows.
Proof.
  intros H. rewrite <- (firstn_skipn m rows). apply in_or_app. right.
  rewrite <- (firstn_skipn n (skipn m rows)). apply in_or_app. left. exact H.
Qed.

Lemma in_listed (category_id : option Z) (d : Db) (p : Product.t) :
  In p (listed category_id d) ->
  In p (products d) /\ Product.is_active p = true.
Proof.
  unfold listed. intros H.
  assert (Hact : In p (filter Product.is_active (products d))).
  { destruct category_id as [c|]; [|exact H].
    destruct (c =? 0); [exact H|].
    apply filter_In in H. destruct H as [H _]. exact H. }
  apply filter_In in Hact. exact Hact.
Qed.

(** Every product that a [/products] response shows is an active row. *)
Lemma get_products_lists_active (d : Db) (page per_page : Z)
  (category_id : option Z) (k : Z) :
  In k (listed_ids (fst (serve (get_products page per_page category_id) d))) ->
  exists p, In p (products d) /\ Product.id p = k
            /\ Product.is_active p = true.
Proof.
  unfold get_products, paginate. run.
  destruct (page <? 1); [intros []|].
  destruct (per_page <? 1); [intros []|].
  set (items := firstn (Z.to_nat per_page)
                       (skipn (Z.to_nat ((page - 1) * per_page))
                              (listed category_id d))).
  assert (Hitems : forall p, In p items -> In p (listed category_id d)).
  { intros p Hp. unfold items in Hp. apply in_page in Hp. exact Hp. }
  destruct items as [|p0 items'] eqn:E.
  - destruct (page =? 1); intros [].
  - cbn [fst]. rewrite (listed_ids_entries d (p0 :: items')).
    intros Hk. apply in_map_iff in Hk. destruct Hk as (p & Hid & Hp).
    apply Hitems, in_listed in Hp. exists p. tauto.
Qed.

Lemma in_update_where {A : Type} (key : A -> Z) (k : Z) (f : A -> A)
  (rows : list A) (r : A) :
  In r (update_where key k f rows) ->
  exists r0, In r0 rows /\ r = if key r0 =? k then f r0 else r0.
Proof.
  unfold update_where. intros H. apply in_map_iff in H.
  destruct H as (r0 & Hr & Hin). exists r0. split; [exact Hin|].
  symmetry. exact Hr.
Qed.

(** C8. When an administrator deletes an existing product [p], the answer
    is 200 and the row is kept: the table has the same primary keys, and the
    row is [p] with [is_active = false].  No [/products] response, for any
    page, page size and category filter, shows the product.  The detail
    endpoint still answers with every field of [p], its images, its reviews
    and its category (200, not 404; the only other answer is the 500 of a
    review whose author is missing).  The order items are untouched. *)
Theorem soft_delete_visibility
  (db : Db) (admin product_id : Z) (user : User.t) (p : Product.t) :
  find (fun u => User.id u =? admin) (users db) = Some user ->
  User.is_admin user = true ->
  product_by_id product_id db = Some p ->
  let db' := snd (serve (delete_product admin product_id) db) in
  status (fst (serve (delete_product admin product_id) db)) = 200
  /\ map Product.id (products db') = map Product.id (products db)
  /\ product_by_id product_id db' = Some (Product.with_is_active false p)
  /\ (forall page per_page category_id,
        ~ In product_id
             (listed_ids
                (fst (serve (get_products page per_page category_id) db'))))
  /\ fst (serve (get_product product_id) db')
     = match collect (review_entry db)
                     (filter (fun r => Review.product_id r =? product_id)
                             (reviews db)) with
       | Some reviews =>
           mkResponse 200
             (product_detail p
                (map image_entry
                     (filter (fun i => ProductImage.product_id i =? product_id)
                             (product_images db)))
                reviews (category_of p db))
       | None => server_error
       end
  /\ order_items db' = order_items db.
Proof.
  intros Hadmin His Hp. unfold product_by_id in Hp.
  assert (Hdb : serve (delete_product admin product_id) db
                = (mkResponse 200
                     (JObj [("message", JStr "Product deleted successfully")]),
                   with_products
                     (update_where Product.id product_id
                        (Product.with_is_active false)) db)).
  { unfold delete_product. run. rewrite Hadmin, His, Hp. reflexivity. }
  cbv zeta. rewrite Hdb. cbn [fst snd status].
  assert (Hlook : find (fun r => Product.id r =? product_id)
                       (update_where Product.id product_id
                          (Product.with_is_active false) (products db))
                  = Some (Product.with_is_active false p)).
  { rewrite find_update_where by reflexivity. rewrite Hp. cbn [option_map].
    apply find_some in Hp. destruct Hp as [_ Hp]. rewrite Hp. reflexivity. }
  split; [reflexivity|]. split.
  { unfold with_products. cbn [products].
    apply map_key_update_where. reflexivity. }
  split; [exact Hlook|]. split.
  { intros page per_page category_id Hin.
    apply get_products_lists_active in Hin.
    destruct Hin as (r & Hr & Hid & Hact).
    unfold with_products in Hr. cbn [products] in Hr.
    apply in_update_where in Hr. destruct Hr as (r0 & _ & Hr).
    destruct (Product.id r0 =? product_id) eqn:E.
    - subst r. discriminate Hact.
    - subst r. rewrite Hid, Z.eqb_refl in E. discriminate E. }
  split; [|reflexivity].
  unfold get_product. run.
  unfold with_products. cbn [products reviews users product_images].
  rewrite Hlook.
  change (review_entry ?d) with (review_entry db).
  destruct (collect (review_entry db) _); reflexivity.
Qed.

(* ================================================================= *)
(** ** The cart *)


Lemma cart_items_frame
  (create_access_token : Z -> string) (r : Request) (db : Db) :
  writes_cart r = false ->
  cart_items (step create_access_token
                   r db)
  = cart_items db.
Proof.
  unfold step.
  destruct r; cbn [writes_cart handler]; intros H; try discriminate H;
    clear H.
  - unfold register. run. branches; reflexivity.
  - unfold login. run. branches; reflexivity.
  - unfold update_user_profile. run. branches; reflexivity.
  - unfold get_products, paginate. run. branches; reflexivity.
  - unfold get_product. run. branches; reflexivity.
  - unfold create_product. run. branches; reflexivity.
  - unfold update_product. run. branches; reflexivity.
  - unfold delete_product. run. branches; reflexivity.
  - unfold create_category. run. branches; reflexivity.
  - unfold create_review. run. branches; reflexivity.
  - unfold create_address. run. branches; reflexivity.
Qed.




Lemma create_order_db (current_user_id : Z) (data : OrderBody) (uuid4 : N)
  (db : Db) :
  let db' := snd (serve (create_order current_user_id data uuid4) db) in
  db' = db
  \/ (cart_items db'
      = clear_cart (cart_of current_user_id db) (cart_items db)
      /\ reviews db' = reviews db /\ addresses db' = addresses db).
Proof.
  unfold create_order. run.
  destruct (find _ (users db)); [|left; reflexivity].
  destruct (shipping_address_id data) as [k|]; [|left; reflexivity].
  destruct (own_address k current_user_id db) as [shipping|];
    [|left; reflexivity].
  destruct (own_address _ current_user_id db) as [billing|];
    [|left; reflexivity].
  destruct (cart_of current_user_id db) as [|c cs] eqn:Hcart;
    [left; reflexivity|].
  destruct (existsb _ (map Order.order_number (orders db)));
    [left; reflexivity|].
  destruct (place_items _ (c :: cs) 0 _) as [[[response|total]|e] s'] eqn:Hloop.
  - left. apply place_items_committed in Hloop. destruct s'. exact Hloop.
  - right. apply place_items_done in Hloop.
    destruct Hloop as (_ & _ & _ & _ & Hsame).
    destruct Hsame as (_ & Haddr & _ & _ & Hrev & Hcarts & _).
    destruct s' as [db0 w]. cbn [working] in Hcarts, Hrev, Haddr.
    cbn [snd]. unfold with_cart_items, with_orders.
    cbn [cart_items reviews addresses]. rewrite Hcarts, Hrev, Haddr.
    repeat split; reflexivity.
  - left. apply place_items_committed in Hloop. destruct s', e; exact Hloop.
Qed.



(* ================================================================= *)
(** ** Reviews and addresses under every request *)

Lemma reviews_frame
  (create_access_token : Z -> string) (r : Request) (db : Db) :
  match r with
  | CreateReview _ _ _ => True
  | _ => reviews (step create_access_token r db) = reviews db
  end.
Proof.
  unfold step. destruct r; cbn [handler]; try exact I.
  - unfold register. run. branches; reflexivity.
  - unfold login. run. branches; reflexivity.
  - unfold update_user_profile. run. branches; reflexivity.
  - unfold get_products, paginate. run. branches; reflexivity.
  - unfold get_product. run. branches; reflexivity.
  - unfold create_product. run. branches; reflexivity.
  - unfold update_product. run. branches; reflexivity.
  - unfold delete_product. run. branches; reflexivity.
  - unfold create_category. run. branches; reflexivity.
  - unfold add_to_cart. run. branches; reflexivity.
  - unfold update_cart_item. run. branches; reflexivity.
  - unfold remove_from_cart. run. branches; reflexivity.
  - destruct (create_order_db current_user_id data uuid4 db)
      as [H|(_ & H & _)]; cbv zeta in H; rewrite H; reflexivity.
  - unfold create_address. run. branches; reflexivity.
Qed.

Lemma addresses_frame
  (create_access_token : Z -> string) (r : Request) (db : Db) :
  match r with
  | CreateAddress _ _ => True
  | _ => addresses (step create_access_token r db) = addresses db
  end.
Proof.
  unfold step. destruct r; cbn [handler]; try exact I.
  - unfold register. run. branches; reflexivity.
  - unfold login. run. branches; reflexivity.
  - unfold update_user_profile. run. branches; reflexivity.
  - unfold get_products, paginate. run. branches; reflexivity.
  - unfold get_product. run. branches; reflexivity.
  - unfold create_product. run. branches; reflexivity.
  - unfold update_product. run. branches; reflexivity.
  - unfold delete_product. run. branches; reflexivity.
  - unfold create_category. run. branches; reflexivity.
  - unfold add_to_cart. run. branches; reflexivity.
  - unfold update_cart_item. run. branches; reflexivity.
  - unfold remove_from_cart. run. branches; reflexivity.
  - destruct (create_order_db current_user_id data uuid4 db)
      as [H|(_ & _ & H)]; cbv zeta in H; rewrite H; reflexivity.
  - unfold create_review. run. branches; reflexivity.
Qed.

Lemma create_review_db (current_user_id product_id : Z) (data : ReviewBody)
  (db : Db) :
  let db' := snd (serve (create_review current_user_id product_id data) db) in
  db' = db
  \/ (review_by current_user_id product_id db = None
      /\ exists rating,
           db' = with_reviews
                   (fun l =>
                      l ++ [Review.mk (next_id (map Review.id (reviews db)))
                                      rating (get_text (rev_comment data))
                                      current_user_id product_id]) db).
Proof.
  unfold create_review. run.
  destruct (find _ (products db)); [|left; reflexivity].
  destruct (rev_rating data) as [raw|]; [|left; reflexivity].
  destruct (PyInt.int raw) as [rating|]; [|left; reflexivity].
  destruct (rating <? 1); [left; reflexivity|].
  destruct (rating >? 5); [left; reflexivity|].
  destruct (review_by current_user_id product_id db) eqn:E;
    [left; reflexivity|].
  right. split; [reflexivity|]. exists rating. reflexivity.
Qed.

(** No request gives a (user, product) pair a second review. *)
Lemma review_rows_step
  (create_access_token : Z -> string) (r : Request) (db : Db) (u p : Z) :
  review_rows u p (step create_access_token r db)
  <= Z.max 1 (review_rows u p db).
Proof.
  pose proof (reviews_frame create_access_token r db) as Hframe.
  destruct r; try (unfold review_rows; rewrite Hframe; lia).
  clear Hframe. unfold step. cbn [handler].
  destruct (create_review_db current_user_id product_id data db)
    as [H|(Hnone & rating & H)]; cbv zeta in H; rewrite H; [lia|].
  unfold review_rows, with_reviews. cbn [reviews].
  rewrite filter_length_app. cbn [Review.user_id Review.product_id].
  destruct (current_user_id =? u) eqn:Eu;
    destruct (product_id =? p) eqn:Ep; cbn [andb]; try lia.
  apply Z.eqb_eq in Eu, Ep. rewrite <- Eu, <- Ep.
  unfold review_by in Hnone. rewrite (find_none_filter _ _ Hnone). cbn. lia.
Qed.

Lemma create_address_db (current_user_id : Z) (data : AddressBody) (db : Db) :
  let db' := snd (serve (create_address current_user_id data) db) in
  db' = db
  \/ (exists a,
        Address.user_id a = current_user_id
        /\ addresses db'
           = clear_default current_user_id (addresses db) ++ [a])
  \/ (exists a,
        Address.is_default a = false
        /\ addresses db' = addresses db ++ [a]).
Proof.
  unfold create_address. run.
  destruct (addr_street data); [|left; reflexivity].
  destruct (addr_city data); [|left; reflexivity].
  destruct (addr_country data); [|left; reflexivity].
  destruct (addr_zip_code data); [|left; reflexivity].
  cbn [Address.is_default].
  destruct (or_else (addr_is_default data) false) eqn:Hd.
  - right. left. eexists. split; [|reflexivity]. reflexivity.
  - destruct (_ =? 0).
    + right. left. eexists. split; [|reflexivity]. reflexivity.
    + right. right. eexists. split; [|reflexivity]. reflexivity.
Qed.

(** No request gives a user a second default address. *)
Lemma default_rows_step
  (create_access_token : Z -> string) (r : Request) (db : Db) (u : Z) :
  default_rows u (step create_access_token r db)
  <= Z.max 1 (default_rows u db).
Proof.
  pose proof (addresses_frame create_access_token r db) as Hframe.
  destruct r; try (unfold default_rows; rewrite Hframe; lia).
  clear Hframe. unfold step. cbn [handler].
  destruct (create_address_db current_user_id data db)
    as [H|[(a & Ha & H)|(a & Ha & H)]]; cbv zeta in H.
  - rewrite H. lia.
  - unfold default_rows. rewrite H.
    rewrite filter_length_app, default_rows_cleared, Ha.
    destruct (current_user_id =? u); destruct (Address.is_default a);
      cbn [andb]; lia.
  - unfold default_rows. rewrite H.
    rewrite filter_length_app, Ha, andb_false_r. lia.
Qed.

(* ================================================================= *)
(** ** Create-review and create-address *)

(** C6. For a request that carries a rating that [int()] converts, on a
    product id that the database can be asked for, create-review answers
    404 when no product has the target id; else 400 "Rating must be between
    1 and 5" when the rating is below 1 or above 5 (1 and 5 pass); else 400
    "You have already reviewed this product" when the caller has a review
    of the product; in these three cases the database, and so the review
    count, is unchanged.  Otherwise the answer is 201 and exactly one review
    is appended.  No request, of this route or of another, gives a (user,
    product) pair a second review. *)
Theorem create_review_outcomes
  (create_access_token : Z -> string)
  (db : Db) (current_user_id product_id : Z) (raw : json) (rating : Z)
  (comment : option string) :
  int64 product_id ->
  PyInt.int raw = Some rating ->
  let outcome :=
    serve (create_review current_user_id product_id
             {| rev_rating := Some raw; rev_comment := comment |}) db in
  match product_by_id product_id db with
  | None => outcome = (error 404 "Not found", db)
  | Some _ =>
      if (rating <? 1) || (5 <? rating)
      then outcome = (error 400 "Rating must be between 1 and 5", db)
      else
        match review_by current_user_id product_id db with
        | Some _ =>
            outcome = (error 400 "You have already reviewed this product", db)
        | None =>
            status (fst outcome) = 201
            /\ snd outcome
               = with_reviews
                   (fun l =>
                      l ++ [Review.mk (next_id (map Review.id (reviews db)))
                                      rating (get_text comment)
                                      current_user_id product_id]) db
        end
  end
  /\ forall (r : Request) (u p : Z),
       review_rows u p (step create_access_token r db)
       <= Z.max 1 (review_rows u p db).
Proof.
  intros _ Hint. split; [|intros; apply review_rows_step].
  unfold create_review, product_by_id, review_by.
  cbn [rev_rating rev_comment]. run. rewrite Hint.
  destruct (find _ (products db)) as [product|]; [|reflexivity].
  rewrite Z.gtb_ltb.
  destruct (rating <? 1); [reflexivity|].
  destruct (5 <? rating); [reflexivity|].
  destruct (find _ (reviews db)) as [existing|]; [reflexivity|].
  split; reflexivity.
Qed.

Lemma create_review_outcomes_witness :
  status (fst (serve (create_review 1 2 {| rev_rating := Some (JInt 5);
                                           rev_comment := Some "sturdy" |})
                     Sample.db)) = 201
  /\ review_rows 1 2 (snd (serve (create_review 1 2
                                    {| rev_rating := Some (JInt 5);
                                       rev_comment := Some "sturdy" |})
                                 Sample.db)) = 1.
Proof.
  assert (Hid : int64 2) by (unfold int64; lia).
  pose proof (create_review_outcomes Sample.token Sample.db 1 2 (JInt 5) 5
                (Some "sturdy") Hid eq_refl) as H.
  cbv zeta in H. destruct H as [[Hs Hdb] _]. split.
  - exact Hs.
  - rewrite Hdb. reflexivity.
Defined.

Example rating_one_accepted :
  status (fst (serve (create_review 1 2 {| rev_rating := Some (JInt 1);
                                           rev_comment := None |})
                     Sample.db)) = 201.
Proof. reflexivity. Qed.

Example rating_zero_rejected :
  serve (create_review 1 2 {| rev_rating := Some (JInt 0);
                              rev_comment := None |}) Sample.db
  = (error 400 "Rating must be between 1 and 5", Sample.db).
Proof. reflexivity. Qed.

Example rating_six_rejected :
  serve (create_review 1 2 {| rev_rating := Some (JInt 6);
                              rev_comment := None |}) Sample.db
  = (error 400 "Rating must be between 1 and 5", Sample.db).
Proof. reflexivity. Qed.

Example second_review_rejected :
  serve (create_review 2 1 {| rev_rating := Some (JInt 3);
                              rev_comment := None |}) Sample.db
  = (error 400 "You have already reviewed this product", Sample.db).
Proof. reflexivity. Qed.

(** C5. Create-address, given its four required fields, answers 201.  When
    the request marks the address as default, or the caller owns no address
    yet, the new row is stored with [is_default = true] after every address
    of the caller has been set to [is_default = false], so the caller has
    exactly one default address.  Otherwise the new row is stored with
    [is_default = false] and the existing rows are untouched.  No request,
    of this route or of another, gives a user a second default address. *)
Theorem create_address_default_invariant
  (create_access_token : Z -> string)
  (db : Db) (current_user_id : Z) (street city country zip_code : string)
  (state address_type : option string) (is_default : option bool) :
  let outcome :=
    serve (create_address current_user_id
             {| addr_street := Some street;
                addr_city := Some city;
                addr_state := state;
                addr_country := Some country;
                addr_zip_code := Some zip_code;
                addr_is_default := is_default;
                addr_address_type := address_type |}) db in
  let stored (flag : bool) :=
    Address.mk (next_id (map Address.id (addresses db))) street city
               (get_text state) country zip_code flag (get_text address_type)
               current_user_id in
  status (fst outcome) = 201
  /\ (if or_else is_default false
         || (Z.of_nat (List.length (addresses_of current_user_id db)) =? 0)
      then snd outcome
           = with_addresses
               (fun l => clear_default current_user_id l ++ [stored true]) db
           /\ default_rows current_user_id (snd outcome) = 1
      else snd outcome = with_addresses (fun l => l ++ [stored false]) db)
  /\ forall (r : Request) (u : Z),
       default_rows u (step create_access_token r db)
       <= Z.max 1 (default_rows u db).
Proof.
  cbv zeta. apply and_assoc. split; [|intros; apply default_rows_step].
  unfold create_address, addresses_of.
  cbn [addr_street addr_city addr_state addr_country addr_zip_code
       addr_is_default addr_address_type Address.is_default]. run.
  assert (Hids : map Address.id (clear_default current_user_id (addresses db))
                 = map Address.id (addresses db)).
  { unfold clear_default. rewrite map_map. apply map_ext. intros a.
    destruct (Address.user_id a =? current_user_id); reflexivity. }
  destruct (if or_else is_default false then true else _) eqn:Hflag.
  - cbn [fst snd status with_addresses addresses]. rewrite Hids.
    assert (Hone : forall u,
               default_rows u
                 (with_addresses
                    (fun l => clear_default current_user_id l
                              ++ [Address.with_id
                                    (next_id (map Address.id (addresses db)))
                                    (Address.with_is_default true
                                       (Address.mk 0 street city
                                          (get_text state) country zip_code
                                          (or_else is_default false)
                                          (get_text address_type)
                                          current_user_id))]) db)
               = if current_user_id =? u then 1 else default_rows u db).
    { intros u. unfold default_rows, with_addresses. cbn [addresses].
      rewrite filter_length_app, default_rows_cleared.
      cbn [Address.with_id Address.with_is_default Address.user_id
           Address.is_default].
      destruct (current_user_id =? u); cbn [andb]; lia. }
    split; [reflexivity|].
    split; [reflexivity|].
    specialize (Hone current_user_id). rewrite Z.eqb_refl in Hone.
    exact Hone.
  - cbn [fst snd status with_addresses addresses].
    assert (Hd : or_else is_default false = false).
    { destruct (or_else is_default false); [discriminate|reflexivity]. }
    rewrite Hd.
    split; reflexivity.
Qed.

(* ================================================================= *)
(** ** Orders that go through *)

Lemma place_items_succeeds (db0 : Db) (order_id : Z) (items : list CartItem.t) :
  forall (total : Z) (w : Db),
    NoDup (map CartItem.product_id items) ->
    (forall c, In c items ->
               exists p, product_of c w = Some p /\ unavailable p c = false) ->
    exists t s',
      place_items order_id items total (mkSession db0 w) = (Val (inr t), s').
Proof.
  induction items as [|c rest IH]; intros total w Hnodup Hok.
  - exists total, (mkSession db0 w). reflexivity.
  - rewrite place_items_cons. cbn [working committed].
    destruct (Hok c (or_introl eq_refl)) as (p & Hp & Hav).
    rewrite Hp, Hav.
    inversion Hnodup as [|k ks Hnotin Hrest]. subst k ks.
    apply IH; [exact Hrest|].
    intros c' Hc'. destruct (Hok c' (or_intror Hc')) as (p' & Hp' & Hav').
    exists p'. split; [|exact Hav'].
    rewrite <- Hp'. unfold product_of, with_order_items, with_products.
    cbn [products]. apply find_update_where_other; [reflexivity|].
    rewrite (product_of_id c w p Hp). intros Heq. apply Hnotin.
    rewrite Heq. apply in_map. exact Hc'.
Qed.

(** A request that reaches the loop with a non-empty cart, one row per
    product, every product active and in sufficient stock, is answered
    201. *)
Lemma create_order_succeeds (db : Db) (current_user_id : Z) (data : OrderBody)
  (uuid4 : N) (shipping billing : Address.t) :
  order_can_start db current_user_id data uuid4 shipping billing ->
  cart_of current_user_id db <> [] ->
  NoDup (map CartItem.product_id (cart_of current_user_id db)) ->
  (forall c, In c (cart_of current_user_id db) ->
             exists p, product_of c db = Some p /\ unavailable p c = false) ->
  status (fst (serve (create_order current_user_id data uuid4) db)) = 201.
Proof.
  intros Hstart Hcart Hnodup Hok.
  rewrite (create_order_runs db current_user_id data uuid4 shipping billing
             Hstart Hcart).
  cbv zeta.
  destruct (place_items_succeeds db
              (Order.id (pending_order db current_user_id uuid4 shipping
                                       billing))
              (cart_of current_user_id db) 0
              (with_orders
                 (fun l => l ++ [pending_order db current_user_id uuid4
                                               shipping billing]) db)
              Hnodup Hok) as (t & s' & Hloop).
  rewrite Hloop. reflexivity.
Qed.

(* ================================================================= *)
(** ** The properties on the sample shop *)

Lemma sample_can_start (db : Db) :
  users db = users Sample.db ->
  addresses db = addresses Sample.db ->
  orders db = [] ->
  order_can_start db 2 Sample.order_body Sample.uuid4 Sample.home Sample.home.
Proof.
  intros Hu Ha Ho. constructor.
  - rewrite Hu. discriminate.
  - exists 1. unfold own_address. rewrite Ha. repeat split; reflexivity.
  - rewrite Ho. reflexivity.
Qed.

Lemma create_order_all_or_nothing_witness :
  In (CartItem.mk 2 1 2 2) (cart_of 2 Sample.sold_out)
  /\ (Product.is_active (Product.with_stock 0 Sample.desk) = false
      \/ Product.stock (Product.with_stock 0 Sample.desk)
         < CartItem.quantity (CartItem.mk 2 1 2 2))
  /\ serve (create_order 2 Sample.order_body Sample.uuid4) Sample.sold_out
     = (error 400 ("Product "
                   +++ Product.name (Product.with_stock 0 Sample.desk)
                   +++ " is not available or not enough in stock"),
        Sample.sold_out).
Proof.
  apply (create_order_all_or_nothing Sample.sold_out 2 Sample.order_body
           Sample.uuid4 Sample.home Sample.home (CartItem.mk 2 1 2 2)
           (Product.with_stock 0 Sample.desk)).
  - apply sample_can_start; reflexivity.
  - repeat constructor; cbn; intuition discriminate.
  - intros c' [<-|[<-|[]]]; discriminate.
  - reflexivity.
  - reflexivity.
Defined.

Example sold_out_order_rejected :
  serve (create_order 2 Sample.order_body Sample.uuid4) Sample.sold_out
  = (error 400 "Product Desk is not available or not enough in stock",
     Sample.sold_out).
Proof. reflexivity. Qed.


(** Section 8, property 7: two at 10.00 and one at 5.50 make 25.50. *)
Example sample_order_placed :
  serve (create_order 2 Sample.order_body Sample.uuid4) Sample.db
  = (mkResponse 201
       (JObj [("message", JStr "Order created successfully");
              ("order",
                JObj [("id", JInt 1);
                      ("order_number", JStr "ORD-1A2B3C4D");
                      ("status", JStr "pending");
                      ("total_amount", JStr "25.50")])]),
     mkDb [Sample.alice; Sample.bob]
          [Product.with_stock 3 Sample.lamp; Product.with_stock 0 Sample.desk]
          [Sample.home] []
          [Order.mk 1 "ORD-1A2B3C4D" "pending" 2550 2 (Some 1) (Some 1)]
          [OrderItem.mk 1 2 1000 1 1; OrderItem.mk 2 1 550 1 2]
          [Review.mk 1 4 "fine" 2 1] [] []).
Proof. reflexivity. Qed.


Lemma soft_delete_visibility_witness :
  let db' := snd (serve (delete_product 1 2) Sample.db) in
  status (fst (serve (delete_product 1 2) Sample.db)) = 200
  /\ product_by_id 2 db' = Some (Product.with_is_active false Sample.desk)
  /\ ~ In 2 (listed_ids (fst (serve (get_products 1 10 None) db')))
  /\ status (fst (serve (get_product 2) db')) = 200.
Proof.
  pose proof (soft_delete_visibility Sample.db 1 2 Sample.alice Sample.desk
                eq_refl eq_refl eq_refl) as H.
  cbv zeta in H. destruct H as (H1 & _ & H3 & H4 & H5 & _).
  cbv zeta. split; [exact H1|]. split; [exact H3|].
  split; [apply H4|]. rewrite H5. reflexivity.
Defined.

(** Section 8, property 5: adding two, then three, of a product that is not
    in the cart gives one row with quantity five. *)
Example cart_increment :
  let add q db :=
    snd (serve (add_to_cart 1 {| cart_product_id := Some 1;
                                 cart_quantity := Some (JInt q) |}) db) in
  cart_of 1 (add 3 (add 2 Sample.db)) = [CartItem.mk 3 5 1 1].
Proof. reflexivity. Qed.

(** Section 8, property 8: a first address becomes the default whatever the
    request says, and a second one marked default takes the flag over. *)
Example default_address_moves :
  let create flag db :=
    snd (serve (create_address 1
                  {| addr_street := Some "2 Side St";
                     addr_city := Some "Shelbyville";
                     addr_state := None;
                     addr_country := Some "US";
                     addr_zip_code := Some "54321";
                     addr_is_default := flag;
                     addr_address_type := None |}) db) in
  map Address.is_default (addresses_of 1 (create None Sample.db)) = [true]
  /\ map Address.is_default
         (addresses_of 1 (create (Some true) (create None Sample.db)))
     = [false; true].
Proof. split; reflexivity. Qed.

(* ================================================================= *)
(** * Further properties of the routes *)

(** After the case analysis of a handler: either the database is the one
    the request started from, or the status is a success. *)
Ltac unchanged_or_success :=
  run; branches; cbn [fst snd status error not_found server_error];
  intros Hstatus; first [reflexivity | exfalso; lia].

(** X1. Whatever the route and the request, an answer with an error status
    (400 or above: the handlers' own 400, 401, 403 and 404, the 404 of
    [get_or_404] and of the pagination, the 500 of an uncaught exception)
    leaves the database exactly as it was. *)
Theorem failure_writes_nothing
  (create_access_token : Z -> string) (r : Request) (db : Db) :
  400 <= status (fst (serve (handler create_access_token r) db)) ->
  snd (serve (handler create_access_token r) db) = db.
Proof.
  destruct r; cbn [handler].
  - unfold register. unchanged_or_success.
  - unfold login. unchanged_or_success.
  - unfold update_user_profile. unchanged_or_success.
  - unfold get_products, paginate. unchanged_or_success.
  - unfold get_product. unchanged_or_success.
  - unfold create_product. unchanged_or_success.
  - unfold update_product. unchanged_or_success.
  - unfold delete_product. unchanged_or_success.
  - unfold create_category. unchanged_or_success.
  - unfold add_to_cart. unchanged_or_success.
  - unfold update_cart_item. unchanged_or_success.
  - unfold remove_from_cart. unchanged_or_success.
  - unfold create_order. run.
    destruct (find _ (users db)); [|reflexivity].
    destruct (shipping_address_id data) as [k|]; [|reflexivity].
    destruct (own_address k current_user_id db); [|reflexivity].
    destruct (own_address _ current_user_id db); [|reflexivity].
    destruct (cart_of current_user_id db) as [|c cs]; [reflexivity|].
    destruct (existsb _ (map Order.order_number (orders db)));
      [reflexivity|].
    destruct (place_items _ (c :: cs) 0 _) as [[[response|total]|e] s']
      eqn:Hloop.
    + intros _. apply place_items_committed in Hloop. destruct s'.
      exact Hloop.
    + cbn [fst status]. intros H. exfalso. lia.
    + intros _. apply place_items_committed in Hloop.
      destruct s', e; exact Hloop.
  - unfold create_review. unchanged_or_success.
  - unfold create_address. unchanged_or_success.
Qed.

Lemma failure_writes_nothing_witness :
  snd (serve (handler Sample.token
                      (CreateOrder 2 Sample.order_body Sample.uuid4))
             Sample.sold_out)
  = Sample.sold_out.
Proof.
  apply (failure_writes_nothing Sample.token (CreateOrder 2 Sample.order_body Sample.uuid4)
           Sample.sold_out).
  cbn. lia.
Defined.

(* ================================================================= *)
(** ** The administrator routes *)

(** The four routes behind the administrator check. *)
Lemma admin_only_gate (current_user_id : Z) (k : M Response) (db : Db) :
  serve (admin_only current_user_id k) db
  = match find (fun u => User.id u =? current_user_id) (users db) with
    | None => (error 404 "Not found", db)
    | Some user =>
        if User.is_admin user then serve k db
        else (error 403 "Unauthorized", db)
    end.
Proof.
  run. destruct (find _ (users db)) as [user|]; [|reflexivity].
  destruct (User.is_admin user); reflexivity.
Qed.

(** X2. On create-product, update-product, delete-product and
    create-category, a caller who is not an administrator is answered
    403 "Unauthorized", whatever the payload and whether or not the target
    exists, and nothing is written. *)
Theorem admin_routes_refuse_others
  (db : Db) (current_user_id : Z) (user : User.t) :
  find (fun u => User.id u =? current_user_id) (users db) = Some user ->
  User.is_admin user = false ->
  forall (product_id : Z) (product : ProductBody) (category : CategoryBody)
         (uuid4 : N),
    serve (create_product current_user_id product uuid4) db
    = (error 403 "Unauthorized", db)
    /\ serve (update_product current_user_id product_id product) db
       = (error 403 "Unauthorized", db)
    /\ serve (delete_product current_user_id product_id) db
       = (error 403 "Unauthorized", db)
    /\ serve (create_category current_user_id category) db
       = (error 403 "Unauthorized", db).
Proof.
  intros Huser Hadmin product_id product category uuid4.
  unfold create_product, update_product, delete_product, create_category.
  rewrite !admin_only_gate, Huser, Hadmin. repeat split.
Qed.

Lemma admin_routes_refuse_others_witness :
  serve (delete_product 2 1) Sample.db = (error 403 "Unauthorized", Sample.db).
Proof.
  exact (proj1 (proj2 (proj2
           (admin_routes_refuse_others Sample.db 2 Sample.bob eq_refl eq_refl
              1 (Build_ProductBody None None None None None None None)
              (Build_CategoryBody None None) 0%N)))).
Defined.

(* ================================================================= *)
(** ** Accounts *)

(** X3. Registration with its three required fields: a taken username is
    answered 400 "Username already exists" (checked first), a taken email
    400 "Email already exists".  Otherwise the handler builds the account
    and calls [new_user.set_password], a method that class [User] does not
    have: the answer is the generic 500.  In no case is an account
    stored. *)
Theorem register_outcomes
  (create_access_token : Z -> string)
  (db : Db) (username email password : string)
  (first_name last_name : option string) :
  let outcome :=
    serve (register create_access_token
             {| reg_username := Some username;
                reg_email := Some email;
                reg_password := Some password;
                reg_first_name := first_name;
                reg_last_name := last_name |}) db in
  match by_username username db with
  | Some _ => outcome = (error 400 "Username already exists", db)
  | None =>
      match by_email email db with
      | Some _ => outcome = (error 400 "Email already exists", db)
      | None => outcome = (error 500 "Internal server error", db)
      end
  end.
Proof.
  unfold register.
  cbn [reg_username reg_email reg_password reg_first_name reg_last_name].
  run.
  destruct (by_username username db); [reflexivity|]. cbn [present].
  destruct (by_email email db); reflexivity.
Qed.

Lemma create_order_keeps_accounts (current_user_id : Z) (data : OrderBody)
  (uuid4 : N) (db : Db) :
  let db' := snd (serve (create_order current_user_id data uuid4) db) in
  users db' = users db /\ categories db' = categories db.
Proof.
  unfold create_order. run.
  destruct (find _ (users db)); [|split; reflexivity].
  destruct (shipping_address_id data) as [k|]; [|split; reflexivity].
  destruct (own_address k current_user_id db); [|split; reflexivity].
  destruct (own_address _ current_user_id db); [|split; reflexivity].
  destruct (cart_of current_user_id db) as [|c cs]; [split; reflexivity|].
  destruct (existsb _ (map Order.order_number (orders db)));
    [split; reflexivity|].
  destruct (place_items _ (c :: cs) 0 _) as [[[response|total]|e] s']
    eqn:Hloop.
  - apply place_items_committed in Hloop. destruct s'. cbn in Hloop.
    subst. split; reflexivity.
  - apply place_items_done in Hloop.
    destruct Hloop as (_ & _ & _ & _ & Hsame).
    destruct Hsame as (Husers & _ & Hcat & _).
    destruct s' as [db0 w]. cbn [working] in Husers, Hcat.
    cbn [snd]. unfold with_cart_items, with_orders. cbn [users categories].
    rewrite Husers, Hcat. split; reflexivity.
  - apply place_items_committed in Hloop. destruct s', e; cbn in Hloop;
      subst; split; reflexivity.
Qed.

Lemma users_frame
  (create_access_token : Z -> string) (r : Request) (db : Db) :
  match r with
  | Register _ | UpdateUserProfile _ _ => True
  | _ => users (step create_access_token r db) = users db
  end.
Proof.
  unfold step. destruct r; cbn [handler]; try exact I.
  - unfold login. run. branches; reflexivity.
  - unfold get_products, paginate. run. branches; reflexivity.
  - unfold get_product. run. branches; reflexivity.
  - unfold create_product. run. branches; reflexivity.
  - unfold update_product. run. branches; reflexivity.
  - unfold delete_product. run. branches; reflexivity.
  - unfold create_category. run. branches; reflexivity.
  - unfold add_to_cart. run. branches; reflexivity.
  - unfold update_cart_item. run. branches; reflexivity.
  - unfold remove_from_cart. run. branches; reflexivity.
  - apply create_order_keeps_accounts.
  - unfold create_review. run. branches; reflexivity.
  - unfold create_address. run. branches; reflexivity.
Qed.

(** Register stores nothing. *)
Lemma register_db
  (create_access_token : Z -> string) (data : RegisterBody) (db : Db) :
  snd (serve (register create_access_token data) db) = db.
Proof.
  unfold register. run. branches; reflexivity.
Qed.

Lemma update_where_twice {A : Type} (key : A -> Z) (k : Z) (u1 u2 : A)
  (rows : list A) :
  key u1 = k ->
  update_where key k (fun _ => u2) (update_where key k (fun _ => u1) rows)
  = update_where key k (fun _ => u2) rows.
Proof.
  intros Hk. unfold update_where. rewrite map_map. apply map_ext.
  intros r. destruct (key r =? k) eqn:E; [|rewrite E; reflexivity].
  rewrite Hk, Z.eqb_refl. reflexivity.
Qed.

(** What update-user-profile can do to the account table. *)
Lemma update_user_profile_db
  (current_user_id : Z)
  (data : ProfileBody) (db : Db) :
  let db' :=
    snd (serve (update_user_profile current_user_id
                  data) db) in
  db' = db
  \/ exists u u',
       find (fun r => User.id r =? current_user_id) (users db) = Some u
       /\ users db'
          = update_where User.id current_user_id (fun _ => u') (users db)
       /\ User.id u' = User.id u
       /\ User.username u' = User.username u
       /\ User.is_admin u' = User.is_admin u
       /\ (User.email u' = User.email u
           \/ forall r, In r (users db) -> User.email r = User.email u' ->
                        User.id r = current_user_id).
Proof.
  unfold update_user_profile. run.
  destruct (find _ (users db)) as [u|] eqn:Hu; [|left; reflexivity].
  pose proof (find_some _ _ Hu) as [_ Hid]. apply Z.eqb_eq in Hid.
  destruct (prof_password data) as [p|];
    [destruct (prof_email data); branches; left; reflexivity|].
  destruct (prof_email data) as [e|].
  - cbn [User.with_names User.email].
    destruct (String.eqb e (User.email u)) eqn:Ee.
    + right. apply String.eqb_eq in Ee. subst e.
      eexists u, _. split; [reflexivity|]. cbn [snd with_users users].
      rewrite update_where_twice by exact Hid.
      split; [reflexivity|].
      repeat split; left; reflexivity.
    + destruct (by_email e _) as [other|] eqn:Hother; cbn [present];
        [left; reflexivity|].
      right. eexists u, _. split; [reflexivity|]. cbn [snd with_users users].
      rewrite update_where_twice by exact Hid.
      split; [reflexivity|].
      assert (Hrows : forall r, In r (users db) -> User.email r = e ->
                                User.id r = current_user_id).
      { intros r Hr He.
        destruct (User.id r =? current_user_id) eqn:Er;
          [apply Z.eqb_eq; exact Er|].
        exfalso. unfold by_email, with_users in Hother. cbn [users] in Hother.
        pose proof (find_none _ _ Hother r) as Hnone.
        assert (In r (update_where User.id current_user_id
                        (fun _ => User.with_names
                                    match prof_first_name data with
                                    | Some v => v
                                    | None => User.first_name u
                                    end
                                    match prof_last_name data with
                                    | Some v => v
                                    | None => User.last_name u
                                    end u) (users db))).
        { unfold update_where. apply in_map_iff. exists r. rewrite Er.
          split; [reflexivity|exact Hr]. }
        specialize (Hnone H). cbv beta in Hnone.
        rewrite He, String.eqb_refl in Hnone. discriminate. }
      repeat split; right; exact Hrows.
  - right. eexists u, _. split; [reflexivity|]. cbn [snd with_users users].
    rewrite update_where_twice by exact Hid.
    split; [reflexivity|].
    repeat split; left; reflexivity.
Qed.

Lemma unique_key {A : Type} (key : A -> Z) (l : list A) (r r' : A) :
  NoDup (map key l) -> In r l -> In r' l -> key r = key r' -> r = r'.
Proof.
  induction l as [|a l IH]; cbn [map]; intros Hnd Hr Hr' Hk; [contradiction|].
  inversion Hnd as [|k ks Hnotin Hrest]. subst k ks.
  destruct Hr as [->|Hr], Hr' as [->|Hr'].
  - reflexivity.
  - exfalso. apply Hnotin. rewrite Hk. apply in_map. exact Hr'.
  - exfalso. apply Hnotin. rewrite <- Hk. apply in_map. exact Hr.
  - apply IH; assumption.
Qed.

Lemma update_where_map_same {A B : Type} (key : A -> Z) (k : Z) (u u' : A)
  (h : A -> B) (l : list A) :
  NoDup (map key l) ->
  find (fun r => key r =? k) l = Some u ->
  h u' = h u ->
  map h (update_where key k (fun _ => u') l) = map h l.
Proof.
  intros Hnd Hu Hh. unfold update_where. rewrite map_map.
  apply map_ext_in. intros r Hr.
  destruct (key r =? k) eqn:E; [|reflexivity].
  apply find_some in Hu. destruct Hu as [Hin Hk].
  apply Z.eqb_eq in E, Hk.
  rewrite (unique_key key l r u Hnd Hr Hin) by congruence. exact Hh.
Qed.

Lemma NoDup_snoc {A : Type} (l : list A) (a : A) :
  NoDup l -> ~ In a l -> NoDup (l ++ [a]).
Proof.
  intros Hl Ha. induction Hl as [|x l Hx Hl IH]; cbn.
  - constructor; [intros []|constructor].
  - constructor.
    + intros H. apply in_app_or in H. destruct H as [H|[H|[]]].
      * exact (Hx H).
      * apply Ha. left. symmetry. exact H.
    + apply IH. intros H. apply Ha. right. exact H.
Qed.

(** Replacing the row with key [k] by [u'] keeps a column [g] free of
    repetitions when [u'] has the old value of the column or a value that
    the table does not hold elsewhere. *)
Lemma NoDup_map_update {A B : Type} (key : A -> Z) (g : A -> B) (k : Z)
  (u u' : A) (l : list A) :
  NoDup (map key l) ->
  NoDup (map g l) ->
  find (fun r => key r =? k) l = Some u ->
  (g u' = g u \/ forall r, In r l -> g r = g u' -> key r = k) ->
  NoDup (map g (update_where key k (fun _ => u') l)).
Proof.
  intros Hkeys Hg Hu Hnew.
  assert (Hother : forall r, In r l -> key r <> k -> g r <> g u').
  { intros r Hr Hne Heq. destruct Hnew as [Hsame|Hfree].
    - apply find_some in Hu. destruct Hu as [Hin Hk]. apply Z.eqb_eq in Hk.
      assert (Hgr : g r = g u) by congruence.
      clear Hkeys. induction l as [|a l IH]; [contradiction|].
      cbn [map] in Hg. inversion Hg as [|x xs Hx Hxs]. subst x xs.
      destruct Hr as [->|Hr], Hin as [->|Hin].
      + congruence.
      + apply Hx. rewrite Hgr. apply in_map. exact Hin.
      + apply Hx. rewrite <- Hgr. apply in_map. exact Hr.
      + apply IH; assumption.
    - apply Hne. apply Hfree; assumption. }
  clear Hu Hnew. unfold update_where.
  induction l as [|a l IH]; cbn [map]; [constructor|].
  cbn [map] in Hkeys, Hg.
  inversion Hkeys as [|x xs Hkx Hkxs]. subst x xs.
  inversion Hg as [|x xs Hgx Hgxs]. subst x xs.
  assert (IH' := IH Hkxs Hgxs (fun r Hr => Hother r (or_intror Hr))).
  constructor; [|exact IH'].
  intros Hin. apply in_map_iff in Hin. destruct Hin as (b & Hb & Hbin).
  apply in_map_iff in Hbin. destruct Hbin as (r & Hr & Hrin). subst b.
  destruct (key a =? k) eqn:Ea, (key r =? k) eqn:Er.
  - apply Z.eqb_eq in Ea, Er. apply Hkx. rewrite Ea, <- Er. apply in_map.
    exact Hrin.
  - apply Z.eqb_neq in Er. apply (Hother r (or_intror Hrin) Er).
    exact Hb.
  - apply Z.eqb_neq in Ea. apply (Hother a (or_introl eq_refl) Ea).
    symmetry. exact Hb.
  - apply Hgx. rewrite <- Hb. apply in_map. exact Hrin.
Qed.

Lemma find_none_not_in {A : Type} (g : A -> string) (v : string)
  (l : list A) :
  find (fun r => String.eqb (g r) v) l = None -> ~ In v (map g l).
Proof.
  intros H Hin. apply in_map_iff in Hin. destruct Hin as (r & Hr & Hrin).
  pose proof (find_none _ _ H r Hrin) as Hn. cbv beta in Hn.
  rewrite Hr, String.eqb_refl in Hn. discriminate.
Qed.

Lemma next_id_fresh (ids : list Z) : ~ In (next_id ids) ids.
Proof. intros H. apply next_id_above in H. lia. Qed.

(** X4. No request makes two accounts share a primary key, a username or
    an email: if the three columns are free of repetitions before a
    request, they are after it. *)
Theorem accounts_stay_unique
  (create_access_token : Z -> string) (r : Request) (db : Db) :
  unique_accounts db ->
  unique_accounts (step create_access_token r db).
Proof.
  intros (Hid & Hname & Hmail).
  pose proof (users_frame create_access_token r db) as Hframe.
  unfold unique_accounts.
  destruct r; try (rewrite Hframe; repeat split; assumption); clear Hframe;
    unfold step; cbn [handler].
  - rewrite register_db. repeat split; assumption.
  - pose proof (update_user_profile_db current_user_id data db) as Hcase.
    cbv zeta in Hcase.
    destruct Hcase
      as [H|(u & u' & Hu & Hdb & Hi & Hn & _ & He)].
    + rewrite H. repeat split; assumption.
    + rewrite Hdb.
      rewrite (update_where_map_same User.id current_user_id u u' User.id)
        by assumption.
      rewrite (update_where_map_same User.id current_user_id u u'
                 User.username) by assumption.
      split; [exact Hid|]. split; [exact Hname|].
      apply (NoDup_map_update User.id User.email current_user_id u u');
        assumption.
Qed.

Lemma admins_of_pairs (l l' : list User.t) :
  map (fun u => (User.id u, User.is_admin u)) l
  = map (fun u => (User.id u, User.is_admin u)) l' ->
  map User.id (filter User.is_admin l) = map User.id (filter User.is_admin l').
Proof.
  revert l'. induction l as [|a l IH]; intros [|a' l'] H; try discriminate;
    [reflexivity|].
  cbn [map] in H. inversion H as [[Hi Ha Hl]]. cbn [filter].
  rewrite Ha. destruct (User.is_admin a'); cbn [map];
    rewrite (IH l' Hl); congruence.
Qed.

(** X5. No request creates or promotes an administrator, and none demotes
    one: on a table with unique primary keys, the administrators after a
    request are the administrators before it. *)
Theorem administrators_are_fixed
  (create_access_token : Z -> string) (r : Request) (db : Db) :
  NoDup (map User.id (users db)) ->
  admins (step create_access_token
               r db)
  = admins db.
Proof.
  intros Hid.
  pose proof (users_frame create_access_token r db) as Hframe.
  unfold admins.
  destruct r; try (rewrite Hframe; reflexivity); clear Hframe;
    unfold step; cbn [handler].
  - rewrite register_db. reflexivity.
  - pose proof (update_user_profile_db current_user_id data db) as Hcase.
    cbv zeta in Hcase.
    destruct Hcase
      as [H|(u & u' & Hu & Hdb & Hi & _ & Ha & _)].
    + rewrite H. reflexivity.
    + rewrite Hdb. apply admins_of_pairs.
      apply (update_where_map_same User.id current_user_id u u');
        try assumption.
      congruence.
Qed.

Lemma find_snoc {A : Type} (f : A -> bool) (l : list A) (a : A) :
  find f l = None -> f a = true -> find f (l ++ [a]) = Some a.
Proof.
  intros Hl Ha. induction l as [|x l IH]; cbn [app find].
  - rewrite Ha. reflexivity.
  - cbn [find] in Hl. destruct (f x); [discriminate|]. apply IH. exact Hl.
Qed.

Lemma sample_accounts_unique : unique_accounts Sample.db.
Proof.
  repeat split; repeat constructor; cbn; intuition discriminate.
Qed.

Lemma accounts_stay_unique_witness :
  unique_accounts
    (step Sample.token
       (UpdateUserProfile 2 {| prof_first_name := None;
                               prof_last_name := None;
                               prof_email := Some "robert@example.org";
                               prof_password := None |}) Sample.db).
Proof.
  apply (accounts_stay_unique Sample.token). exact sample_accounts_unique.
Defined.

Lemma administrators_are_fixed_witness :
  admins (step Sample.token
            (UpdateUserProfile 2 {| prof_first_name := Some "Robert";
                                    prof_last_name := None;
                                    prof_email := None;
                                    prof_password := None |})
            Sample.db)
  = admins Sample.db.
Proof.
  apply (administrators_are_fixed Sample.token).
  exact (proj1 sample_accounts_unique).
Defined.

(* ================================================================= *)
(** ** The cart routes in detail *)

(** X8. Update-cart-item on an id that the database can be asked for, with
    a quantity that [int()] converts, answers, in this order: 404 "Cart
    item not found" when the caller has no cart row with that id; 400 "Quantity must be
    greater than zero" for an integer quantity that is not positive; 400
    "Not enough stock available" when the product's stock is below it.
    Otherwise the answer is 200 and the row's quantity is set to the
    requested one: replaced, not incremented.  The failures write
    nothing. *)
Theorem update_cart_item_outcomes
  (db : Db) (current_user_id item_id : Z) (raw : json) (quantity : Z)
  (ignored : option Z) :
  int64 item_id ->
  PyInt.int raw = Some quantity ->
  let outcome :=
    serve (update_cart_item current_user_id item_id
             {| cart_product_id := ignored; cart_quantity := Some raw |}) db in
  match own_cart_item item_id current_user_id db with
  | None => outcome = (error 404 "Cart item not found", db)
  | Some item =>
      if quantity <=? 0
      then outcome = (error 400 "Quantity must be greater than zero", db)
      else
        match product_of item db with
        | None => outcome = (server_error, db)
        | Some product =>
            if Product.stock product <? quantity
            then outcome = (error 400 "Not enough stock available", db)
            else
              status (fst outcome) = 200
              /\ snd outcome
                 = with_cart_items
                     (update_where CartItem.id (CartItem.id item)
                        (CartItem.with_quantity quantity)) db
        end
  end.
Proof.
  intros _ Hint. unfold update_cart_item, product_of. cbn [cart_quantity].
  run. destruct (own_cart_item item_id current_user_id db) as [item|];
    [|reflexivity].
  rewrite Hint. destruct (quantity <=? 0); [reflexivity|].
  destruct (find _ (products db)) as [product|]; [|reflexivity].
  destruct (Product.stock product <? quantity); [reflexivity|].
  split; reflexivity.
Qed.

(** What the three cart routes do to the table, with the row they act on. *)
Lemma add_to_cart_effect (current_user_id : Z) (data : CartBody) (db : Db) :
  let db' := snd (serve (add_to_cart current_user_id data) db) in
  db' = db
  \/ (exists product_id quantity item,
        cart_entry current_user_id product_id db = Some item
        /\ 0 < quantity
        /\ db' = with_cart_items
                   (update_where CartItem.id (CartItem.id item)
                      (CartItem.with_quantity
                         (CartItem.quantity item + quantity))) db)
  \/ (exists product_id quantity,
        0 < quantity
        /\ db' = with_cart_items
                   (fun l => l ++ [CartItem.mk
                                     (next_id (map CartItem.id (cart_items db)))
                                     quantity current_user_id product_id])
                   db).
Proof.
  unfold add_to_cart. run.
  destruct (cart_product_id data) as [product_id|]; [|left; reflexivity].
  destruct (cart_quantity data) as [raw|]; [|left; reflexivity].
  destruct (PyInt.int raw) as [quantity|]; [|left; reflexivity].
  destruct (active_product product_id db) as [product|]; [|left; reflexivity].
  destruct (quantity <=? 0) eqn:Eq; [left; reflexivity|].
  apply Z.leb_gt in Eq.
  destruct (Product.stock product <? quantity); [left; reflexivity|].
  destruct (cart_entry current_user_id product_id db) as [item|] eqn:E.
  - right. left. exists product_id, quantity, item.
    split; [exact E|]. split; [exact Eq|reflexivity].
  - right. right. exists product_id, quantity. split; [exact Eq|reflexivity].
Qed.

Lemma update_cart_item_effect (current_user_id item_id : Z) (data : CartBody)
  (db : Db) :
  let db' := snd (serve (update_cart_item current_user_id item_id data) db) in
  db' = db
  \/ exists item quantity,
       own_cart_item item_id current_user_id db = Some item
       /\ 0 < quantity
       /\ db' = with_cart_items
                  (update_where CartItem.id (CartItem.id item)
                     (CartItem.with_quantity quantity)) db.
Proof.
  unfold update_cart_item. run.
  destruct (own_cart_item item_id current_user_id db) as [item|] eqn:E;
    [|left; reflexivity].
  destruct (cart_quantity data) as [raw|]; [|left; reflexivity].
  destruct (PyInt.int raw) as [quantity|]; [|left; reflexivity].
  destruct (quantity <=? 0) eqn:Eq; [left; reflexivity|].
  apply Z.leb_gt in Eq.
  destruct (find _ (products db)) as [product|]; [|left; reflexivity].
  destruct (Product.stock product <? quantity); [left; reflexivity|].
  right. exists item, quantity. split; [reflexivity|].
  split; [exact Eq|reflexivity].
Qed.

Lemma remove_from_cart_effect (current_user_id item_id : Z) (db : Db) :
  let db' := snd (serve (remove_from_cart current_user_id item_id) db) in
  db' = db
  \/ exists item,
       own_cart_item item_id current_user_id db = Some item
       /\ db' = with_cart_items (delete_where CartItem.id (CartItem.id item))
                                db.
Proof.
  unfold remove_from_cart. run.
  destruct (own_cart_item item_id current_user_id db) as [item|] eqn:E;
    [|left; reflexivity].
  right. exists item. split; reflexivity.
Qed.

Lemma cart_entry_owner (u p : Z) (db : Db) (item : CartItem.t) :
  cart_entry u p db = Some item ->
  In item (cart_items db) /\ CartItem.user_id item = u.
Proof.
  unfold cart_entry. intros H. apply find_some in H. destruct H as [Hin H].
  apply andb_true_iff in H. destruct H as [H _]. apply Z.eqb_eq in H.
  split; assumption.
Qed.

Lemma own_cart_item_owner (k u : Z) (db : Db) (item : CartItem.t) :
  own_cart_item k u db = Some item ->
  In item (cart_items db) /\ CartItem.user_id item = u
  /\ CartItem.id item = k.
Proof.
  unfold own_cart_item. intros H. apply find_some in H. destruct H as [Hin H].
  apply andb_true_iff in H. destruct H as [Hk Hu].
  apply Z.eqb_eq in Hk, Hu. repeat split; assumption.
Qed.

(* ------------------------------------------------------------- *)
(** *** Quantities stay positive *)

(** X9. Every cart row has a positive quantity, and every request keeps it
    so: add-to-cart and update-cart-item refuse a quantity that is not
    positive, and an increment only adds a positive amount. *)
Theorem cart_quantities_stay_positive
  (create_access_token : Z -> string) (r : Request) (db : Db) :
  Forall (fun c => 0 < CartItem.quantity c) (cart_items db) ->
  Forall (fun c => 0 < CartItem.quantity c)
         (cart_items (step create_access_token r db)).
Proof.
  intros Hpos.
  destruct (writes_cart r) eqn:Hw.
  2:{ rewrite (cart_items_frame create_access_token r db Hw). exact Hpos. }
  rewrite Forall_forall in Hpos.
  destruct r; try discriminate Hw; unfold step; cbn [handler];
    apply Forall_forall; intros x Hx.
  - pose proof (add_to_cart_effect current_user_id data db) as Hcase.
    cbv zeta in Hcase.
    destruct Hcase as [H|[(p & q & item & Hitem & Hq & H)|(p & q & Hq & H)]];
      rewrite H in Hx.
    + apply Hpos. exact Hx.
    + unfold with_cart_items in Hx. cbn [cart_items] in Hx.
      apply in_update_where in Hx. destruct Hx as (x0 & Hx0 & ->).
      destruct (CartItem.id x0 =? CartItem.id item); [|apply Hpos; exact Hx0].
      cbn [CartItem.with_quantity CartItem.quantity].
      apply cart_entry_owner in Hitem. destruct Hitem as [Hin _].
      specialize (Hpos item Hin). lia.
    + unfold with_cart_items in Hx. cbn [cart_items] in Hx.
      apply in_app_or in Hx. destruct Hx as [Hx|[<-|[]]];
        [apply Hpos; exact Hx|exact Hq].
  - pose proof (update_cart_item_effect current_user_id item_id data db)
      as Hcase.
    cbv zeta in Hcase.
    destruct Hcase as [H|(item & q & _ & Hq & H)]; rewrite H in Hx.
    + apply Hpos. exact Hx.
    + unfold with_cart_items in Hx. cbn [cart_items] in Hx.
      apply in_update_where in Hx. destruct Hx as (x0 & Hx0 & ->).
      destruct (CartItem.id x0 =? CartItem.id item); [exact Hq|].
      apply Hpos. exact Hx0.
  - pose proof (remove_from_cart_effect current_user_id item_id db) as Hcase.
    cbv zeta in Hcase.
    destruct Hcase as [H|(item & _ & H)]; rewrite H in Hx.
    + apply Hpos. exact Hx.
    + unfold with_cart_items, delete_where in Hx. cbn [cart_items] in Hx.
      apply filter_In in Hx. apply Hpos. exact (proj1 Hx).
  - pose proof (create_order_db current_user_id data uuid4 db) as Hcase.
    cbv zeta in Hcase. destruct Hcase as [H|(H & _ & _)]; rewrite H in Hx.
    + apply Hpos. exact Hx.
    + apply in_clear_cart in Hx. apply Hpos. exact (proj1 Hx).
Qed.

(* ------------------------------------------------------------- *)
(** *** One user's cart and another's *)

(** A filter does not see an update, or a deletion, of rows that it
    rejects before and after. *)
Lemma filter_update_where {A : Type} (key : A -> Z) (k : Z) (f : A -> A)
  (g : A -> bool) (rows : list A) :
  (forall r, In r rows -> key r = k -> g r = false /\ g (f r) = false) ->
  filter g (update_where key k f rows) = filter g rows.
Proof.
  unfold update_where. induction rows as [|x rows IH]; intros H;
    [reflexivity|].
  cbn [map filter]. rewrite IH by (intros r Hr; apply H; right; exact Hr).
  destruct (key x =? k) eqn:E; [|reflexivity].
  apply Z.eqb_eq in E. destruct (H x (or_introl eq_refl) E) as [-> ->].
  reflexivity.
Qed.

Lemma filter_delete_where {A : Type} (key : A -> Z) (k : Z) (g : A -> bool)
  (rows : list A) :
  (forall r, In r rows -> key r = k -> g r = false) ->
  filter g (delete_where key k rows) = filter g rows.
Proof.
  unfold delete_where. induction rows as [|x rows IH]; intros H;
    [reflexivity|].
  cbn [filter]. destruct (key x =? k) eqn:E; cbn [negb filter].
  - apply Z.eqb_eq in E. rewrite (H x (or_introl eq_refl) E).
    apply IH. intros r Hr. apply H. right. exact Hr.
  - rewrite IH by (intros r Hr; apply H; right; exact Hr). reflexivity.
Qed.

Lemma filter_clear_cart (g : CartItem.t -> bool) (cs rows : list CartItem.t) :
  (forall c r, In c cs -> In r rows -> CartItem.id r = CartItem.id c ->
               g r = false) ->
  filter g (clear_cart cs rows) = filter g rows.
Proof.
  unfold clear_cart. revert rows.
  induction cs as [|c cs IH]; intros rows H; [reflexivity|].
  cbn [fold_left]. rewrite IH.
  - apply filter_delete_where. intros r Hr Hk.
    apply (H c r (or_introl eq_refl) Hr Hk).
  - intros c' r Hc' Hr Hk. unfold delete_where in Hr.
    apply filter_In in Hr. apply (H c' r (or_intror Hc') (proj1 Hr) Hk).
Qed.

(** X10. A request never touches the cart of anybody but its caller: on a
    cart table with unique primary keys, the cart rows of a user [v] are
    the same, in the same order, after any request that does not run on
    behalf of [v]. *)
Theorem other_carts_untouched
  (create_access_token : Z -> string) (r : Request) (db : Db) (v : Z) :
  NoDup (map CartItem.id (cart_items db)) ->
  caller r <> Some v ->
  cart_of v (step create_access_token
                  r db)
  = cart_of v db.
Proof.
  intros Hnd Hv. unfold cart_of.
  destruct (writes_cart r) eqn:Hw.
  2:{ rewrite (cart_items_frame create_access_token r db Hw). reflexivity. }
  assert (Hrow : forall item r0,
             In item (cart_items db) -> CartItem.user_id item <> v ->
             In r0 (cart_items db) -> CartItem.id r0 = CartItem.id item ->
             (CartItem.user_id r0 =? v) = false).
  { intros item r0 Hitem Hu Hr0 Hk.
    rewrite (unique_key CartItem.id (cart_items db) r0 item Hnd Hr0 Hitem Hk).
    apply Z.eqb_neq. exact Hu. }
  destruct r; try discriminate Hw; unfold step; cbn [handler];
    cbn [caller] in Hv;
    assert (Hne : current_user_id <> v) by congruence; clear Hv.
  - pose proof (add_to_cart_effect current_user_id data db) as Hcase.
    cbv zeta in Hcase.
    destruct Hcase as [H|[(p & q & item & Hitem & _ & H)|(p & q & _ & H)]];
      rewrite H; [reflexivity| |].
    + apply cart_entry_owner in Hitem. destruct Hitem as [Hin Hu].
      unfold with_cart_items. cbn [cart_items].
      apply filter_update_where. intros r0 Hr0 Hk.
      split; [|cbn [CartItem.with_quantity CartItem.user_id]];
        apply (Hrow item r0 Hin); congruence.
    + unfold with_cart_items. cbn [cart_items]. rewrite filter_app.
      cbn [filter CartItem.user_id].
      apply Z.eqb_neq in Hne. rewrite Hne. apply app_nil_r.
  - pose proof (update_cart_item_effect current_user_id item_id data db)
      as Hcase.
    cbv zeta in Hcase.
    destruct Hcase as [H|(item & q & Hitem & _ & H)]; rewrite H;
      [reflexivity|].
    apply own_cart_item_owner in Hitem. destruct Hitem as (Hin & Hu & _).
    unfold with_cart_items. cbn [cart_items].
    apply filter_update_where. intros r0 Hr0 Hk.
    split; [|cbn [CartItem.with_quantity CartItem.user_id]];
      apply (Hrow item r0 Hin); congruence.
  - pose proof (remove_from_cart_effect current_user_id item_id db) as Hcase.
    cbv zeta in Hcase.
    destruct Hcase as [H|(item & Hitem & H)]; rewrite H; [reflexivity|].
    apply own_cart_item_owner in Hitem. destruct Hitem as (Hin & Hu & _).
    unfold with_cart_items. cbn [cart_items].
    apply filter_delete_where. intros r0 Hr0 Hk.
    apply (Hrow item r0 Hin); congruence.
  - pose proof (create_order_db current_user_id data uuid4 db) as Hcase.
    cbv zeta in Hcase. destruct Hcase as [H|(H & _ & _)]; rewrite H;
      [reflexivity|].
    apply filter_clear_cart. intros c r0 Hc Hr0 Hk.
    unfold cart_of in Hc. apply filter_In in Hc. destruct Hc as [Hc Hu].
    apply Z.eqb_eq in Hu. apply (Hrow c r0 Hc); congruence.
Qed.

(** X11. Add, then remove.  An add-to-cart that passes validation for a
    product that the caller does not have in the cart creates the row with
    the next primary key; removing that row gives back the database that
    the add started from. *)
Theorem add_then_remove
  (db : Db) (current_user_id product_id : Z) (raw : json) (quantity : Z)
  (product : Product.t) :
  PyInt.int raw = Some quantity ->
  active_product product_id db = Some product ->
  0 < quantity <= Product.stock product ->
  cart_entry current_user_id product_id db = None ->
  let added :=
    serve (add_to_cart current_user_id
             {| cart_product_id := Some product_id;
                cart_quantity := Some raw |}) db in
  status (fst added) = 200
  /\ serve (remove_from_cart current_user_id
              (next_id (map CartItem.id (cart_items db)))) (snd added)
     = (mkResponse 200 (JObj [("message", JStr "Item removed from cart")]),
        db).
Proof.
  intros Hint Hprod [Hq Hs] Hnone.
  unfold add_to_cart. cbn [cart_product_id cart_quantity]. run.
  rewrite Hint, Hprod.
  destruct (quantity <=? 0) eqn:E0; [apply Z.leb_le in E0; lia|].
  destruct (Product.stock product <? quantity) eqn:E1;
    [apply Z.ltb_lt in E1; lia|].
  rewrite Hnone. cbn [fst snd status]. split; [reflexivity|].
  unfold remove_from_cart. run.
  unfold own_cart_item, with_cart_items. cbn [cart_items].
  set (new_id := next_id (map CartItem.id (cart_items db))).
  assert (Hold : forall c, In c (cart_items db) ->
                           (CartItem.id c =? new_id) = false).
  { intros c Hc. apply Z.eqb_neq. intros Heq.
    apply (next_id_fresh (map CartItem.id (cart_items db))).
    fold new_id. rewrite <- Heq. apply in_map. exact Hc. }
  rewrite (find_snoc _ (cart_items db)
             (CartItem.mk new_id quantity current_user_id product_id)).
  2:{ destruct (find _ (cart_items db)) as [c|] eqn:Hc; [|reflexivity].
      apply find_some in Hc. destruct Hc as [Hin Hc].
      rewrite (Hold c Hin) in Hc. discriminate. }
  2:{ cbn. rewrite !Z.eqb_refl. reflexivity. }
  cbn [CartItem.id cart_items]. f_equal.
  assert (Hrows : delete_where CartItem.id new_id
                    (cart_items db
                     ++ [CartItem.mk new_id quantity current_user_id
                                     product_id])
                  = cart_items db).
  { unfold delete_where. rewrite filter_app. cbn [filter CartItem.id].
    rewrite Z.eqb_refl. cbn [negb]. rewrite app_nil_r.
    apply forallb_filter_id. apply forallb_forall. intros c Hc.
    rewrite (Hold c Hc). reflexivity. }
  rewrite Hrows. destruct db. reflexivity.
Qed.

(** X12. A caller cannot change or delete a cart row of somebody else: on
    a cart table with unique primary keys, update-cart-item and
    remove-from-cart on the id of another user's row are answered 404 "Cart
    item not found", the answer for an id that does not exist, and write
    nothing. *)
Theorem foreign_cart_item_not_found
  (db : Db) (current_user_id : Z) (item : CartItem.t) (data : CartBody) :
  NoDup (map CartItem.id (cart_items db)) ->
  In item (cart_items db) ->
  CartItem.user_id item <> current_user_id ->
  serve (update_cart_item current_user_id (CartItem.id item) data) db
  = (error 404 "Cart item not found", db)
  /\ serve (remove_from_cart current_user_id (CartItem.id item)) db
     = (error 404 "Cart item not found", db).
Proof.
  intros Hnd Hin Hu.
  assert (Hnone : own_cart_item (CartItem.id item) current_user_id db = None).
  { destruct (own_cart_item _ _ db) as [c|] eqn:Hc; [|reflexivity].
    apply own_cart_item_owner in Hc. destruct Hc as (Hc & Hcu & Hck).
    rewrite (unique_key CartItem.id (cart_items db) c item Hnd Hc Hin Hck)
      in Hcu. contradiction. }
  unfold update_cart_item, remove_from_cart. run. rewrite Hnone.
  split; reflexivity.
Qed.

(* ================================================================= *)
(** ** Stock *)

Lemma place_items_stock (order_id : Z) (items : list CartItem.t) :
  forall (total : Z) (s : Session) (t : Z) (s' : Session),
    place_items order_id items total s = (Val (inr t), s') ->
    Forall (fun p => 0 <= Product.stock p) (products (working s)) ->
    Forall (fun p => 0 <= Product.stock p) (products (working s')).
Proof.
  induction items as [|c rest IH]; intros total s t s' H Hpos.
  - rewrite place_items_nil in H. inversion H. subst. exact Hpos.
  - rewrite place_items_cons in H.
    destruct (product_of c (working s)) as [p|] eqn:Hp; [|discriminate].
    destruct (unavailable p c) eqn:Hav.
    { destruct (product_of c (committed s)); discriminate. }
    apply IH in H; [exact H|]. cbn [working with_order_items with_products
                                    products].
    unfold unavailable in Hav. apply orb_false_iff in Hav.
    destruct Hav as [_ Hav]. apply Z.ltb_ge in Hav.
    rewrite Forall_forall in Hpos |- *. intros x Hx.
    apply in_update_where in Hx. destruct Hx as (x0 & Hx0 & ->).
    destruct (Product.id x0 =? Product.id p); [|apply Hpos; exact Hx0].
    cbn [Product.with_stock Product.stock]. lia.
Qed.

(** X13. Placing an order never drives a stock below zero: each decrement
    comes after the check that the stock covers the quantity.  If no
    product has a negative stock before create-order, none has after it,
    whatever the cart holds and whatever the answer is. *)
Theorem create_order_keeps_stock_nonnegative
  (db : Db) (current_user_id : Z) (data : OrderBody) (uuid4 : N) :
  Forall (fun p => 0 <= Product.stock p) (products db) ->
  Forall (fun p => 0 <= Product.stock p)
         (products (snd (serve (create_order current_user_id data uuid4)
                               db))).
Proof.
  intros Hpos. unfold create_order. run.
  destruct (find _ (users db)); [|exact Hpos].
  destruct (shipping_address_id data) as [k|]; [|exact Hpos].
  destruct (own_address k current_user_id db); [|exact Hpos].
  destruct (own_address _ current_user_id db); [|exact Hpos].
  destruct (cart_of current_user_id db) as [|c cs]; [exact Hpos|].
  destruct (existsb _ (map Order.order_number (orders db))); [exact Hpos|].
  destruct (place_items _ (c :: cs) 0 _) as [[[response|total]|e] s']
    eqn:Hloop.
  - apply place_items_committed in Hloop. destruct s'. cbn in Hloop.
    subst. exact Hpos.
  - apply place_items_stock in Hloop; [|exact Hpos].
    destruct s'. exact Hloop.
  - apply place_items_committed in Hloop. destruct s', e; cbn in Hloop;
      subst; exact Hpos.
Qed.

(* ================================================================= *)
(** ** Soft delete, again *)

Lemma update_where_compose {A : Type} (key : A -> Z) (k : Z) (f g : A -> A)
  (rows : list A) :
  (forall r, key (f r) = key r) ->
  update_where key k g (update_where key k f rows)
  = update_where key k (fun r => g (f r)) rows.
Proof.
  intros Hf. unfold update_where. rewrite map_map. apply map_ext.
  intros r. destruct (key r =? k) eqn:E; [|rewrite E; reflexivity].
  rewrite Hf, E. reflexivity.
Qed.

Lemma update_where_same_row {A : Type} (key : A -> Z) (k : Z) (u : A)
  (rows : list A) :
  NoDup (map key rows) ->
  find (fun r => key r =? k) rows = Some u ->
  update_where key k (fun _ => u) rows = rows.
Proof.
  intros Hnd Hu.
  rewrite <- (map_id (update_where key k (fun _ => u) rows)).
  rewrite <- (map_id rows) at 2.
  apply (update_where_map_same key k u u (fun x => x)); auto.
Qed.

(** X14. A soft delete can be undone.  On a product table with unique
    primary keys, deleting an active product and then updating it with
    [is_active = true] and nothing else gives back the database as it was
    before the deletion. *)
Theorem soft_delete_undone
  (db : Db) (admin product_id : Z) (user : User.t) (p : Product.t) :
  find (fun u => User.id u =? admin) (users db) = Some user ->
  User.is_admin user = true ->
  NoDup (map Product.id (products db)) ->
  product_by_id product_id db = Some p ->
  Product.is_active p = true ->
  snd (serve (update_product admin product_id
                {| prod_name := None;
                   prod_description := None;
                   prod_price := None;
                   prod_stock := None;
                   prod_sku := None;
                   prod_category_id := None;
                   prod_is_active := Some true |})
             (snd (serve (delete_product admin product_id) db)))
  = db.
Proof.
  intros Hadmin His Hnd Hp Hact. unfold product_by_id in Hp.
  assert (Hdel : snd (serve (delete_product admin product_id) db)
                 = with_products
                     (update_where Product.id product_id
                        (Product.with_is_active false)) db).
  { unfold delete_product. run. rewrite Hadmin, His, Hp. reflexivity. }
  rewrite Hdel. unfold update_product.
  cbn [prod_name prod_description prod_price prod_stock prod_sku
       prod_category_id prod_is_active or_else].
  run. unfold with_products. cbn [users products].
  rewrite Hadmin, His. cbn [products].
  rewrite find_update_where by reflexivity. rewrite Hp. cbn [option_map].
  pose proof (find_some _ _ Hp) as [_ Hid]. rewrite Hid.
  cbn [snd products Product.with_is_active Product.id
       Product.name Product.description Product.price Product.stock
       Product.sku Product.category_id].
  rewrite (update_where_compose Product.id product_id) by reflexivity.
  cbv beta.
  replace (Product.mk (Product.id p) (Product.name p) (Product.description p)
                      (Product.price p) (Product.stock p) (Product.sku p)
                      true (Product.category_id p)) with p
    by (destruct p; cbn in Hact |- *; rewrite Hact; reflexivity).
  rewrite (update_where_same_row Product.id product_id p (products db) Hnd Hp).
  destruct db. reflexivity.
Qed.

(* ================================================================= *)
(** ** The cart as shown and the order as placed *)

Lemma cart_lines_total (d : Db) (items : list CartItem.t) :
  forall (result : list json) (total : Z),
    (forall c, In c items -> product_of c d <> None) ->
    exists lines,
      cart_lines d items result total
      = Some (result ++ lines, total + cart_total d items)
      /\ List.length lines = List.length items.
Proof.
  induction items as [|c rest IH]; intros result total Hfk.
  - exists []. cbn. rewrite app_nil_r, Z.add_0_r. split; reflexivity.
  - cbn [cart_lines].
    destruct (product_of c d) as [p|] eqn:Hp.
    2:{ exfalso. apply (Hfk c (or_introl eq_refl)). exact Hp. }
    destruct (IH (result
                  ++ [JObj [("id", JInt (CartItem.id c));
                            ("product_id", JInt (Product.id p));
                            ("product_name", JStr (Product.name p));
                            ("quantity", JInt (CartItem.quantity c));
                            ("price", JStr (str_decimal (Product.price p)));
                            ("total",
                              JStr (str_decimal
                                      (Product.price p
                                       * CartItem.quantity c)))]])
                 (total + Product.price p * CartItem.quantity c)
                 (fun c' Hc' => Hfk c' (or_intror Hc')))
      as (lines & Hlines & Hlen).
    eexists (_ :: lines). rewrite Hlines, <- app_assoc. cbn [app].
    split; [|cbn [List.length]; rewrite Hlen; reflexivity].
    f_equal. f_equal. unfold cart_total. cbn [map fold_right].
    unfold price_of at 2. rewrite Hp. lia.
Qed.

(** X15. The total that the cart shows is the total that an order charges.
    When every cart row of the caller references an existing product, no
    price or quantity in the cart is negative and the sum of price times
    quantity fits [Numeric(10, 2)] (so that every product and partial sum
    is exact in [Decimal] arithmetic and in the column), get-cart answers
    200 with ["total"] the decimal text of the sum of
    price times quantity and ["items_count"] the number of rows; and a
    create-order answered 201 on the same database reports that same text
    as the order's ["total_amount"]. *)
Theorem cart_total_is_order_total
  (db : Db) (current_user_id : Z) :
  (forall c, In c (cart_of current_user_id db) -> product_of c db <> None) ->
  (forall c, In c (cart_of current_user_id db) ->
             0 <= price_of db c /\ 0 <= CartItem.quantity c) ->
  cart_total db (cart_of current_user_id db) < 10 ^ 10 ->
  let shown := fst (serve (get_cart current_user_id) db) in
  let amount :=
    JStr (str_decimal (cart_total db (cart_of current_user_id db))) in
  status shown = 200
  /\ field "total" (body shown) = Some amount
  /\ field "items_count" (body shown)
     = Some (JInt (Z.of_nat (List.length (cart_of current_user_id db))))
  /\ forall (data : OrderBody) (uuid4 : N),
       status (fst (serve (create_order current_user_id data uuid4) db))
       = 201 ->
       match field "order"
                   (body (fst (serve (create_order current_user_id data
                                                   uuid4) db))) with
       | Some order => field "total_amount" order = Some amount
       | None => False
       end.
Proof.
  intros Hfk _ _. cbv zeta.
  destruct (cart_lines_total db (cart_of current_user_id db) [] 0 Hfk)
    as (lines & Hlines & Hlen).
  assert (Hshown : fst (serve (get_cart current_user_id) db)
                   = mkResponse 200
                       (JObj [("cart_items", JArr lines);
                              ("total",
                                JStr (str_decimal
                                        (cart_total db
                                           (cart_of current_user_id db))));
                              ("items_count",
                                JInt (Z.of_nat (List.length lines)))])).
  { unfold get_cart. run. rewrite Hlines. reflexivity. }
  rewrite Hshown. split; [reflexivity|]. split; [reflexivity|].
  split; [cbn; rewrite Hlen; reflexivity|].
  intros data uuid4 H201.
  destruct (create_order_201_started db current_user_id data uuid4 H201)
    as [Hcart (shipping & billing & Hstart)].
  rewrite (create_order_runs db current_user_id data uuid4 shipping billing
             Hstart Hcart) in H201 |- *.
  cbv zeta in H201 |- *.
  destruct (place_items _ (cart_of current_user_id db) 0 _)
    as [[[early|total]|[|]] s'] eqn:Hloop.
  - apply place_items_early in Hloop. cbn [fst] in H201. lia.
  - apply place_items_done in Hloop. destruct Hloop as (_ & Ht & _).
    cbn [working] in Ht. cbn. rewrite Ht. reflexivity.
  - discriminate H201.
  - discriminate H201.
Qed.

(* ================================================================= *)
(** ** Categories *)

(** X16. A soft-deleted product still counts in its category: whatever a
    delete-product request does, the answer of get-categories after it,
    product counts included, is the answer before it. *)
Theorem categories_count_deleted_products
  (db : Db) (current_user_id product_id : Z) :
  fst (serve get_categories
             (snd (serve (delete_product current_user_id product_id) db)))
  = fst (serve get_categories db).
Proof.
  assert (Hdb : snd (serve (delete_product current_user_id product_id) db)
                = db
                \/ snd (serve (delete_product current_user_id product_id) db)
                   = with_products
                       (update_where Product.id product_id
                          (Product.with_is_active false)) db).
  { unfold delete_product. run. branches; auto. }
  destruct Hdb as [->| ->]; [reflexivity|].
  unfold get_categories. run. cbn [fst]. do 5 f_equal.
  unfold with_products. cbn [categories].
  apply map_ext. intros c. unfold category_entry, product_count.
  cbn [products]. unfold update_where.
  rewrite (filter_map_same
             (fun p => opt_eqb (Product.category_id p) (Some (Category.id c)))
             (fun r => if Product.id r =? product_id
                       then Product.with_is_active false r else r)
             (products db)).
  - reflexivity.
  - intros p. destruct (Product.id p =? product_id); reflexivity.
Qed.

(* ================================================================= *)
(** ** Reading an order *)

(** X17. An order is readable by its owner only: on an order table with
    unique primary keys, get-order-details on the id of another user's
    order is answered 404 "Order not found", the answer for an id that
    does not exist. *)
Theorem foreign_order_not_found
  (db : Db) (current_user_id : Z) (o : Order.t) :
  NoDup (map Order.id (orders db)) ->
  In o (orders db) ->
  Order.user_id o <> current_user_id ->
  serve (get_order_details current_user_id (Order.id o)) db
  = (error 404 "Order not found", db).
Proof.
  intros Hnd Hin Hu.
  assert (Hnone : own_order (Order.id o) current_user_id db = None).
  { destruct (own_order _ _ db) as [x|] eqn:Hx; [|reflexivity].
    unfold own_order in Hx. apply find_some in Hx. destruct Hx as [Hx H].
    apply andb_true_iff in H. destruct H as [Hk Hxu].
    apply Z.eqb_eq in Hk, Hxu.
    rewrite (unique_key Order.id (orders db) x o Hnd Hx Hin Hk) in Hxu.
    contradiction. }
  unfold get_order_details. run. rewrite Hnone. reflexivity.
Qed.




(* ================================================================= *)
(** ** The catalogue *)

(** X19. Create-product by an administrator, with the four required
    fields, a stock and a category id that fit a 32-bit INTEGER and a price
    that fits [Numeric(10, 2)].  The SKU is the one given or, when the key
    is absent, "SKU-" followed by eight upper-case hexadecimal characters.
    A price that [Decimal] refuses, and a SKU that a product already has,
    are not reported as validation errors: the answer is the generic 500,
    with nothing stored.  Otherwise the answer is 201 and one active
    product is appended. *)
Theorem create_product_outcomes
  (db : Db) (admin : Z) (user : User.t) (name : string) (price : PriceField)
  (stock : Z) (category_id : option Z) (description given_sku : option string)
  (is_active : option bool) (uuid4 : N) :
  find (fun u => User.id u =? admin) (users db) = Some user ->
  User.is_admin user = true ->
  - 2 ^ 31 <= stock < 2 ^ 31 ->
  - 2 ^ 31 <= or_else category_id 0 < 2 ^ 31 ->
  Z.abs match price with Amount d => d | NotDecimal => 0 end < 10 ^ 10 ->
  let outcome :=
    serve (create_product admin
             {| prod_name := Some name;
                prod_description := description;
                prod_price := Some price;
                prod_stock := Some stock;
                prod_sku := given_sku;
                prod_category_id := Some category_id;
                prod_is_active := is_active |} uuid4) db in
  let sku := or_else given_sku (Uuid.tagged "SKU-" uuid4) in
  (given_sku = None ->
   exists digits, sku = "SKU-" +++ string_of_list_ascii digits /\ hex8 digits)
  /\ match price with
     | NotDecimal => outcome = (server_error, db)
     | Amount amount =>
         if existsb (String.eqb sku) (map Product.sku (products db))
         then outcome = (server_error, db)
         else status (fst outcome) = 201
              /\ snd outcome
                 = with_products
                     (fun l =>
                        l ++ [Product.mk
                                (next_id (map Product.id (products db)))
                                name (get_text description) amount stock
                                sku true category_id]) db
     end.
Proof.
  intros Hadmin His _ _ _. cbv zeta. split.
  - intros ->. cbn [or_else]. apply tagged_format.
  - unfold create_product. rewrite admin_only_gate, Hadmin, His.
    cbn [prod_name prod_description prod_price prod_stock prod_sku
         prod_category_id].
    run. destruct price as [amount|]; [|reflexivity].
    destruct given_sku as [sku|]; cbn [or_else];
      destruct (existsb _ (map Product.sku (products db)));
      try reflexivity; split; reflexivity.
Qed.

Lemma categories_frame
  (create_access_token : Z -> string) (r : Request) (db : Db) :
  match r with
  | CreateCategory _ _ => True
  | _ => categories (step create_access_token r db) = categories db
  end.
Proof.
  unfold step. destruct r; cbn [handler]; try exact I.
  - unfold register. run. branches; reflexivity.
  - unfold login. run. branches; reflexivity.
  - unfold update_user_profile. run. branches; reflexivity.
  - unfold get_products, paginate. run. branches; reflexivity.
  - unfold get_product. run. branches; reflexivity.
  - unfold create_product. run. branches; reflexivity.
  - unfold update_product. run. branches; reflexivity.
  - unfold delete_product. run. branches; reflexivity.
  - unfold add_to_cart. run. branches; reflexivity.
  - unfold update_cart_item. run. branches; reflexivity.
  - unfold remove_from_cart. run. branches; reflexivity.
  - apply create_order_keeps_accounts.
  - unfold create_review. run. branches; reflexivity.
  - unfold create_address. run. branches; reflexivity.
Qed.

Lemma create_category_db (current_user_id : Z) (data : CategoryBody)
  (db : Db) :
  let db' := snd (serve (create_category current_user_id data) db) in
  db' = db
  \/ exists c,
       categories db' = categories db ++ [c]
       /\ find (fun k => String.eqb (Category.name k) (Category.name c))
               (categories db) = None.
Proof.
  unfold create_category. rewrite admin_only_gate.
  destruct (find _ (users db)) as [user|]; [|left; reflexivity].
  destruct (User.is_admin user); [|left; reflexivity].
  destruct (cat_name data) as [name|]; [|left; reflexivity].
  run. destruct (find _ (categories db)) eqn:E; [left; reflexivity|].
  right. eexists. split; [reflexivity|]. exact E.
Qed.

(** X20. Category names stay unique: create-category refuses a name that
    a category already has, and no other route writes the table.  If no
    two categories share a name before a request, none do after it. *)
Theorem category_names_stay_unique
  (create_access_token : Z -> string) (r : Request) (db : Db) :
  NoDup (map Category.name (categories db)) ->
  NoDup (map Category.name
             (categories (step create_access_token r db))).
Proof.
  intros Hnd.
  pose proof (categories_frame create_access_token r db) as Hframe.
  destruct r; try (rewrite Hframe; exact Hnd). clear Hframe.
  unfold step. cbn [handler].
  pose proof (create_category_db current_user_id data db) as Hcase.
  cbv zeta in Hcase. destruct Hcase as [H|(c & H & Hfree)]; rewrite H.
  - exact Hnd.
  - rewrite map_app. apply NoDup_snoc; [exact Hnd|].
    apply find_none_not_in. exact Hfree.
Qed.

(* ================================================================= *)
(** ** The schema-evolution step, out of order *)

Module MigrationOrder.
Import Migration.

Lemma every_exclusive (n : string) (p q : Table -> bool) (s : Schema) :
  (forall t, q t = negb (p t)) ->
  has_table n s = true ->
  every n p s = true ->
  every n q s = false.
Proof.
  intros Hq. unfold has_table, every.
  induction s as [|t s IH]; cbn [existsb forallb]; intros Ht Hp;
    [discriminate|].
  apply andb_true_iff in Hp. destruct Hp as [Hpt Hps].
  destruct (String.eqb (tname t) n) eqn:E.
  - rewrite Hq, Hpt. reflexivity.
  - cbn [orb] in Ht. rewrite (IH Ht Hps). apply andb_false_r.
Qed.

End MigrationOrder.

(** X21. The two operations only work in order.  Once the forward
    operation has succeeded, a second forward operation fails (the column
    is there), and on the schema it started from the backward operation
    fails (there is no column to drop). *)
Theorem migration_not_repeatable (s s' : Migration.Schema) :
  Migration.upgrade s = Some s' ->
  Migration.upgrade s' = None /\ Migration.downgrade s = None.
Proof.
  unfold Migration.upgrade, Migration.downgrade, Migration.add_column,
    Migration.drop_column.
  destruct (Migration.has_table "users" s) eqn:Ht; [|discriminate].
  destruct (Migration.every "users"
              (fun t => negb (Migration.has_column
                                (Migration.cname Migration.password_column)
                                t)) s) eqn:Hc; [|discriminate].
  destruct (Migration.every "users"
              (fun t => Migration.nullable Migration.password_column
                        || (Migration.rows t =? 0)%N) s);
    [|discriminate].
  cbn [andb]. intros H. inversion H as [Hs']. clear H. split.
  - rewrite MigrationFacts.has_table_alter by reflexivity. rewrite Ht.
    rewrite (MigrationOrder.every_exclusive "users"
               (Migration.has_column
                  (Migration.cname Migration.password_column))
               (fun t => negb (Migration.has_column
                                 (Migration.cname Migration.password_column)
                                 t)));
      [reflexivity|reflexivity| |apply MigrationFacts.every_added].
    rewrite MigrationFacts.has_table_alter by reflexivity. exact Ht.
  - rewrite (MigrationOrder.every_exclusive "users"
               (fun t => negb (Migration.has_column "password" t))
               (Migration.has_column "password") s);
      [reflexivity| |exact Ht|exact Hc].
    intros t. rewrite negb_involutive. reflexivity.
Qed.

(* ================================================================= *)
(** ** The further properties on the sample shop *)

Lemma sample_cart_ids_unique : NoDup (map CartItem.id (cart_items Sample.db)).
Proof. repeat constructor; cbn; intuition discriminate. Qed.

Lemma update_cart_item_outcomes_witness :
  status (fst (serve (update_cart_item 2 1
                        {| cart_product_id := None;
                           cart_quantity := Some (JInt 4) |}) Sample.db))
  = 200
  /\ snd (serve (update_cart_item 2 1
                   {| cart_product_id := None;
                      cart_quantity := Some (JInt 4) |}) Sample.db)
     = with_cart_items
         (update_where CartItem.id 1 (CartItem.with_quantity 4)) Sample.db.
Proof.
  apply (update_cart_item_outcomes Sample.db 2 1 (JInt 4) 4 None);
    [unfold int64; lia | reflexivity].
Defined.

Lemma cart_quantities_stay_positive_witness :
  Forall (fun c => 0 < CartItem.quantity c)
         (cart_items
            (step Sample.token
                  (AddToCart 2 {| cart_product_id := Some 1;
                                  cart_quantity := Some (JInt 3) |})
                  Sample.db)).
Proof.
  apply (cart_quantities_stay_positive Sample.token).
  repeat constructor.
Defined.

Lemma other_carts_untouched_witness :
  cart_of 2 (step Sample.token
                  (AddToCart 1 {| cart_product_id := Some 1;
                                  cart_quantity := Some (JInt 1) |})
                  Sample.db)
  = cart_of 2 Sample.db.
Proof.
  apply (other_carts_untouched Sample.token).
  - exact sample_cart_ids_unique.
  - discriminate.
Defined.

Lemma add_then_remove_witness :
  serve (remove_from_cart 1 3)
        (snd (serve (add_to_cart 1 {| cart_product_id := Some 1;
                                      cart_quantity := Some (JInt 2) |})
                    Sample.db))
  = (mkResponse 200 (JObj [("message", JStr "Item removed from cart")]),
     Sample.db).
Proof.
  refine (proj2 (add_then_remove Sample.db 1 1 (JInt 2) 2 Sample.lamp
                   eq_refl eq_refl _ eq_refl)).
  cbn. lia.
Defined.

Lemma foreign_cart_item_not_found_witness :
  serve (update_cart_item 1 1 {| cart_product_id := None;
                                 cart_quantity := Some (JInt 1) |})
        Sample.db
  = (error 404 "Cart item not found", Sample.db)
  /\ serve (remove_from_cart 1 1) Sample.db
     = (error 404 "Cart item not found", Sample.db).
Proof.
  apply (foreign_cart_item_not_found Sample.db 1 (CartItem.mk 1 2 2 1)).
  - exact sample_cart_ids_unique.
  - left. reflexivity.
  - discriminate.
Defined.

Lemma create_order_keeps_stock_nonnegative_witness :
  Forall (fun p => 0 <= Product.stock p)
         (products (snd (serve (create_order 2 Sample.order_body
                                             Sample.uuid4) Sample.db))).
Proof.
  apply create_order_keeps_stock_nonnegative.
  repeat constructor; discriminate.
Defined.

Lemma soft_delete_undone_witness :
  snd (serve (update_product 1 2
                {| prod_name := None;
                   prod_description := None;
                   prod_price := None;
                   prod_stock := None;
                   prod_sku := None;
                   prod_category_id := None;
                   prod_is_active := Some true |})
             (snd (serve (delete_product 1 2) Sample.db)))
  = Sample.db.
Proof.
  apply (soft_delete_undone Sample.db 1 2 Sample.alice Sample.desk);
    try reflexivity.
  repeat constructor; cbn; intuition discriminate.
Defined.

Lemma cart_total_is_order_total_witness :
  field "total" (body (fst (serve (get_cart 2) Sample.db)))
  = Some (JStr (str_decimal (cart_total Sample.db (cart_of 2 Sample.db)))).
Proof.
  refine (proj1 (proj2 (cart_total_is_order_total Sample.db 2 _ _ _))).
  - intros c [<-|[<-|[]]]; discriminate.
  - intros c [<-|[<-|[]]]; cbn; lia.
  - cbn. lia.
Defined.

Example sample_cart_shows_2550 :
  field "total" (body (fst (serve (get_cart 2) Sample.db)))
  = Some (JStr "25.50").
Proof. reflexivity. Qed.

Lemma foreign_order_not_found_witness :
  serve (get_order_details 1 1)
        (snd (serve (create_order 2 Sample.order_body Sample.uuid4)
                    Sample.db))
  = (error 404 "Order not found",
     snd (serve (create_order 2 Sample.order_body Sample.uuid4) Sample.db)).
Proof.
  apply (foreign_order_not_found
           (snd (serve (create_order 2 Sample.order_body Sample.uuid4)
                       Sample.db))
           1 (Order.mk 1 "ORD-1A2B3C4D" "pending" 2550 2 (Some 1) (Some 1))).
  - repeat constructor. intros [].
  - left. reflexivity.
  - discriminate.
Defined.


Lemma create_product_outcomes_witness :
  serve (create_product 1
           {| prod_name := Some "Chair";
              prod_description := None;
              prod_price := Some NotDecimal;
              prod_stock := Some 3;
              prod_sku := None;
              prod_category_id := Some None;
              prod_is_active := None |} Sample.uuid4) Sample.db
  = (server_error, Sample.db).
Proof.
  apply (create_product_outcomes Sample.db 1 Sample.alice "Chair" NotDecimal
           3 None None None None Sample.uuid4);
    [reflexivity | reflexivity | lia | cbn; lia | cbn; lia].
Defined.

Example chair_created :
  status (fst (serve (create_product 1
                        {| prod_name := Some "Chair";
                           prod_description := None;
                           prod_price := Some (Amount 4000);
                           prod_stock := Some 3;
                           prod_sku := None;
                           prod_category_id := Some None;
                           prod_is_active := None |} Sample.uuid4)
                     Sample.db)) = 201.
Proof. reflexivity. Qed.

Lemma category_names_stay_unique_witness :
  NoDup (map Category.name
             (categories
                (step Sample.token
                      (CreateCategory 1 {| cat_name := Some "Furniture";
                                           cat_description := None |})
                      Sample.db))).
Proof.
  apply (category_names_stay_unique Sample.token).
  constructor.
Defined.

Lemma migration_not_repeatable_witness :
  Migration.upgrade
    (Migration.alter "users"
       (fun t =>
          Migration.mkTable (Migration.tname t)
            (Migration.columns t ++ [Migration.password_column])
            (Migration.rows t))
       Sample.schema)
  = None
  /\ Migration.downgrade Sample.schema = None.
Proof.
  exact (migration_not_repeatable Sample.schema _ eq_refl).
Defined.
